(** * Weather API server: a shallow embedding and its verified properties

    The development follows the packages of the repository: [utils]
    (environment helpers), [main] (configuration loading and start-up),
    [service] (the OpenWeatherMap client) and [handler] (the HTTP handler),
    preceded by the parts of the Go standard library they call ([strconv],
    [fmt], [net/url], [net], [net/http]).  Go's [float64] is Rocq's primitive binary64 float, Go's
    [int] is a 64-bit integer carried in [Z], a Go function that returns
    [(T, error)] returns a [Result T], and a call that may panic returns an
    [Outcome].

    Library functions whose text is long ([strconv.ParseFloat],
    [strconv.FormatFloat], [url.Parse], [json.Unmarshal], time formatting)
    or that depend on the host ([net.Listen]) stand behind interfaces: the properties of the repository's code hold for
    every implementation, and [GoRuntime] gives executable ones on which the
    scenarios are run. *)

From Stdlib Require Import ZArith String Ascii List Bool Lia.
From Stdlib Require Import DecimalString DecimalPos DecimalZ.
From Stdlib Require Import Floats.
From stdpp Require Import base option strings gmap sorting.

#[local] Set Warnings "-inexact-float".

Local Open Scope string_scope.
Local Open Scope Z_scope.

(** ** Go conventions *)

(** A Go [error] is observed through its message only. *)
Definition error := string.

(** The [(T, error)] return convention: callers test [err != nil] first and
    never look at the value that accompanies a non-nil error. *)
Inductive Result (A : Type) : Type :=
| Ok (a : A)
| Err (e : error).
Arguments Ok {A} a.
Arguments Err {A} e.

(** A call either returns or panics with a run-time error. *)
Inductive Outcome (A : Type) : Type :=
| Return (a : A)
| Panic (msg : string).
Arguments Return {A} a.
Arguments Panic {A} msg.


(** Go's [int] on a 64-bit platform. *)
Definition min_int : Z := - 2 ^ 63.
Definition max_int : Z := 2 ^ 63 - 1.

(** ** Package strconv (integers) *)
Module strconv.

Definition ErrSyntax : error := "invalid syntax".
Definition ErrRange : error := "value out of range".

Definition is_digit (c : ascii) : bool :=
  (48 <=? Z.of_N (N_of_ascii c)) && (Z.of_N (N_of_ascii c) <=? 57).

Definition digit_value (c : ascii) : Z := Z.of_N (N_of_ascii c) - 48.

(** Value of a run of decimal digits, [None] on any other byte. *)
Fixpoint digits_value (acc : Z) (s : string) : option Z :=
  match s with
  | EmptyString => Some acc
  | String c s' =>
      if is_digit c then digits_value (10 * acc + digit_value c) s' else None
  end.

(** [strconv.Atoi]: an optional sign, then at least one decimal digit and
    nothing else; the value has to fit in an [int]. *)
Definition Atoi (s : string) : Result Z :=
  let '(neg, body) :=
    match s with
    | String "-" r => (true, r)
    | String "+" r => (false, r)
    | _ => (false, s)
    end in
  match body with
  | EmptyString => Err ErrSyntax
  | _ =>
      match digits_value 0 body with
      | None => Err ErrSyntax
      | Some n =>
          let v := if neg then - n else n in
          if (min_int <=? v) && (v <=? max_int) then Ok v else Err ErrRange
      end
  end.

End strconv.

(** ** Package strconv (floating point)

    [ParseFloat] and [FormatFloat] belong to the Go runtime, not to the
    repository; the code is verified against any implementation of this
    interface, and [GoRuntime] below provides one to run it. *)
Class StrconvFloat := {
  (** [strconv.ParseFloat(s, 64)] *)
  ParseFloat64 : string -> Result float;
  (** [strconv.FormatFloat(x, 'f', prec, 64)] *)
  FormatFloat_f64 : float -> Z -> string
}.

(** ** Package fmt: the verbs the code uses *)
Module fmt.

(** [%d] of an [int]. *)
Definition Sprint_d (n : Z) : string := NilZero.string_of_int (Z.to_int n).

Fixpoint zeros (n : nat) : string :=
  match n with
  | O => ""
  | S k => String "0" (zeros k)
  end.

Definition pad_left (n : nat) (s : string) : string :=
  zeros (n - String.length s) +:+ s.

(** [a / b] rounded to the nearest integer, ties to even ([0 <= a], [0 < b]). *)
Definition div_nearest_even (a b : Z) : Z :=
  let q := a / b in
  let r := a mod b in
  match 2 * r ?= b with
  | Lt => q
  | Gt => q + 1
  | Eq => if Z.even q then q else q + 1
  end.

(** [%.<prec>f] of a [float64]: the exact binary value rounded to [prec]
    decimals, ties to even; [NaN], [+Inf] and [-Inf] for the special
    values. *)
Definition Sprint_f (prec : nat) (x : float) : string :=
  let p := 10 ^ Z.of_nat prec in
  let fixed (neg : bool) (scaled : Z) : string :=
    (if neg then "-" else "") +:+ Sprint_d (scaled / p) +:+
    match prec with
    | O => ""
    | _ => "." +:+ pad_left prec (Sprint_d (scaled mod p))
    end in
  match Prim2SF x with
  | S754_nan => "NaN"
  | S754_infinity false => "+Inf"
  | S754_infinity true => "-Inf"
  | S754_zero s => fixed s 0
  | S754_finite s m e =>
      fixed s (if 0 <=? e then Z.pos m * 2 ^ e * p
               else div_nearest_even (Z.pos m * p) (2 ^ (- e)))
  end.

End fmt.

(** ** Package net/url *)
Module url.

(** [url.Values] is [map[string][]string]. *)
Abbreviation Values := (gmap string (list string)).

Definition Get (v : Values) (key : string) : string :=
  match v !! key with
  | Some (x :: _) => x
  | _ => ""
  end.

Definition Add (v : Values) (key value : string) : Values :=
  <[key := (default [] (v !! key) ++ [value])%list]> v.

Definition is_unreserved (c : ascii) : bool :=
  let n := Z.of_N (N_of_ascii c) in
  ((97 <=? n) && (n <=? 122)) || ((65 <=? n) && (n <=? 90)) ||
  ((48 <=? n) && (n <=? 57)) ||
  (n =? 45) || (n =? 95) || (n =? 46) || (n =? 126).

Definition upperhex (n : Z) : ascii :=
  ascii_of_N (Z.to_N (if n <? 10 then 48 + n else 55 + n)).

(** [QueryEscape]: letters, digits and [-_.~] are kept, a space becomes
    [+], every other byte becomes [%XX]. *)
Fixpoint QueryEscape (s : string) : string :=
  match s with
  | EmptyString => EmptyString
  | String c s' =>
      let n := Z.of_N (N_of_ascii c) in
      if is_unreserved c then String c (QueryEscape s')
      else if n =? 32 then String "+" (QueryEscape s')
      else String "%" (String (upperhex (n / 16))
                         (String (upperhex (n mod 16)) (QueryEscape s')))
  end.

(** Go orders strings bytewise. *)
Definition string_le (a b : string) : Prop := Is_true (String.leb a b).

#[global] Instance string_le_dec a b : Decision (string_le a b) :=
  Is_true_dec _.

Definition sorted_keys (v : Values) : list string :=
  merge_sort string_le (map_to_list v).*1.

Fixpoint join (sep : string) (l : list string) : string :=
  match l with
  | [] => ""
  | [x] => x
  | x :: l' => x +:+ sep +:+ join sep l'
  end.

(** [Values.Encode]: the pairs [key=value], escaped, sorted by key, joined
    by [&]. *)
Definition Encode (v : Values) : string :=
  join "&"
    (concat
       (List.map
          (fun k => List.map (fun x => QueryEscape k +:+ "=" +:+ QueryEscape x)
                      (default [] (v !! k)))
          (sorted_keys v))).

(** [url.Parse], [URL.RawQuery = q] and [URL.String] belong to the Go
    runtime. *)
Class Lib := {
  URL : Type;
  Parse : string -> Result URL;
  with_RawQuery : URL -> string -> URL;
  String_ : URL -> string
}.

End url.

(** ** Package utils: environment helpers *)
Module utils.

(** The process environment; [os.Getenv] yields the empty string for a
    variable that is not set. *)
Definition Getenv (env : gmap string string) (key : string) : string :=
  default "" (env !! key).

Definition GetEnvAsStrWithDefault (env : gmap string string)
    (envName defValue : string) : string :=
  let envVal := Getenv env envName in
  if String.eqb envVal "" then defValue else envVal.

(** [fmt.Errorf(errMsg)] is called with no operands; the one caller passes
    a message without formatting verbs, which comes back unchanged. *)
Definition GetEnvAsMustStr (env : gmap string string)
    (envName errMsg : string) : Result string :=
  let envVal := Getenv env envName in
  if String.eqb envVal "" then Err errMsg else Ok envVal.

Definition GetEnvAsIntWithDefault (env : gmap string string)
    (envName : string) (defValue : Z) : Z :=
  let envVal := Getenv env envName in
  if String.eqb envVal "" then defValue
  else
    match strconv.Atoi envVal with
    | Err _ => defValue
    | Ok envValAsInt => envValAsInt
    end.

End utils.

(** ** Package net: the listener *)
Module net.

(** [net.Listen("tcp", addr)] as [http.Server.ListenAndServe] observes it:
    the error, if the address cannot be opened.  What it returns depends on
    the host (the ports in use, the privileges of the process, the services
    database). *)
Class Host := {
  Listen_tcp : string -> option error
}.

End net.

(** ** Package main: configuration and start-up *)
Module main.

Record Config := {
  Port : string;
  OpenWeatherAPIKey : string;
  OpenWeatherBaseURL : string;
  ReadTimeoutSec : Z;
  WriteTimeoutSec : Z;
  IdleTimeoutSec : Z;
  ClientTimeoutSec : Z;
  ServerShutdownTimeoutSec : Z
}.

Definition loadServerConfig (env : gmap string string) : Result Config :=
  match utils.GetEnvAsMustStr env "OPENWEATHER_API_KEY"
          "OPENWEATHER_API_KEY environment variable is required" with
  | Err err => Err err
  | Ok apiKey =>
      let port := utils.GetEnvAsStrWithDefault env "APP_SERVER_PORT" "8080" in
      let baseURL :=
        utils.GetEnvAsStrWithDefault env "OPENWEATHER_BASE_URL"
          "https://api.openweathermap.org/data/2.5" in
      let ReadTimeoutSec' := utils.GetEnvAsIntWithDefault env "APP_SERVER_READ_TIMEOUT_SEC" 15 in
      let WriteTimeoutSec' := utils.GetEnvAsIntWithDefault env "APP_SERVER_WRITE_TIMEOUT_SEC" 15 in
      let IdleTimeoutSec' := utils.GetEnvAsIntWithDefault env "APP_SERVER_IDLE_TIMEOUT_SEC" 120 in
      let ClientTimeoutSec' := utils.GetEnvAsIntWithDefault env "APP_SERVER_CLIENT_TIMEOUT_SEC" 10 in
      let ServerShutdownTimeoutSec' :=
        utils.GetEnvAsIntWithDefault env "APP_SERVER_SHUTDOWN_TIMEOUT_SEC" 30 in
      Ok {| Port := port;
            OpenWeatherAPIKey := apiKey;
            OpenWeatherBaseURL := baseURL;
            ReadTimeoutSec := ReadTimeoutSec';
            WriteTimeoutSec := WriteTimeoutSec';
            IdleTimeoutSec := IdleTimeoutSec';
            ClientTimeoutSec := ClientTimeoutSec';
            ServerShutdownTimeoutSec := ServerShutdownTimeoutSec' |}
  end.

(** How [main] starts: a configuration error is logged and the process
    exits with [os.Exit(-1)]; otherwise the service, the handler and the
    routes are built (nothing there can fail) and [ListenAndServe] opens the
    listener on [":" + config.Port]; an error of the listener ends the
    process through [log.Fatalf]; otherwise the server is serving. *)
Inductive Startup :=
| Exit (code : Z)
| Fatalf (line : string)
| Serve (config : Config).

Definition startup `{net.Host} (env : gmap string string) : Startup :=
  match loadServerConfig env with
  | Err _ => Exit (-1)
  | Ok config =>
      match net.Listen_tcp (":" +:+ Port config) with
      | Some err => Fatalf ("Server failed to start: " +:+ err)
      | None => Serve config
      end
  end.


End main.

(** ** Packages context and net/http *)
Module http.

(** A context is observed through the timeouts (in seconds) layered on
    it; [context.Background()] has none. *)
Definition Context := list Z.

Definition WithTimeout (parent : Context) (seconds : Z) : Context :=
  seconds :: parent.

(** *** Client side *)

(** The request a client sends. *)
Record ClientRequest := {
  req_Ctx : Context;
  req_Method : string;
  req_URL : string;
  req_Header : gmap string string
}.

(** [http.NewRequestWithContext] with a valid method and a non-nil context
    fails exactly when the target does not parse as a URL. *)
Definition NewRequestWithContext `{url.Lib} (ctx : Context)
    (method target : string) : Result ClientRequest :=
  match url.Parse target with
  | Err err => Err err
  | Ok _ =>
      Ok {| req_Ctx := ctx; req_Method := method; req_URL := target;
            req_Header := ∅ |}
  end.

Definition Header_Set (req : ClientRequest) (key value : string) : ClientRequest :=
  {| req_Ctx := req_Ctx req; req_Method := req_Method req;
     req_URL := req_URL req;
     req_Header := <[key := value]> (req_Header req) |}.

(** What comes back: the status line and what [io.ReadAll] makes of the
    body. *)
Record Response := {
  StatusCode : Z;
  ReadAll_Body : Result string
}.

(** An [http.Client]: its global timeout in seconds and the network it
    talks to ([Do] fails on transport errors and on an expired context). *)
Record Client := {
  Timeout : Z;
  Do : ClientRequest -> Result Response
}.

(** *** Server side *)

(** The request a handler receives; [Query] is [r.URL.Query()]. *)
Record Request := {
  Method : string;
  Path : string;
  RemoteAddr : string;
  Query : url.Values;
  Ctx : Context
}.

(** What is written to the body: the output of one [Encoder.Encode] call
    (the JSON text of a value and a newline), or a line of text. *)
Inductive Chunk (P : Type) : Type :=
| JSONLine (p : P)
| TextLine (s : string).
Arguments JSONLine {P} p.
Arguments TextLine {P} s.

(** An [http.ResponseWriter] as [httptest.ResponseRecorder] records it:
    the live header map, whether the status line went out, the status and
    the header as sent, and the body.  [WriteFails] stands for a connection
    on which every [Write] returns an error. *)
Record ResponseWriter (P : Type) := {
  Header : gmap string string;
  wroteHeader : bool;
  Code : Z;
  SentHeader : gmap string string;
  Body : list (Chunk P);
  WriteFails : bool
}.
Arguments Header {P} _.
Arguments wroteHeader {P} _.
Arguments Code {P} _.
Arguments SentHeader {P} _.
Arguments Body {P} _.
Arguments WriteFails {P} _.

Definition NewRecorder {P} : ResponseWriter P :=
  {| Header := ∅; wroteHeader := false; Code := 200; SentHeader := ∅;
     Body := []; WriteFails := false |}.

Definition Set_Header {P} (w : ResponseWriter P) (key value : string) : ResponseWriter P :=
  {| Header := <[key := value]> (Header w); wroteHeader := wroteHeader w;
     Code := Code w; SentHeader := SentHeader w; Body := Body w;
     WriteFails := WriteFails w |}.

Definition Del_Header {P} (w : ResponseWriter P) (key : string) : ResponseWriter P :=
  {| Header := delete key (Header w); wroteHeader := wroteHeader w;
     Code := Code w; SentHeader := SentHeader w; Body := Body w;
     WriteFails := WriteFails w |}.

(** [WriteHeader]: a second call is superfluous and changes nothing; the
    first one panics on a code outside 100..999, and otherwise fixes the
    status and the header that go on the wire. *)
Definition WriteHeader {P} (w : ResponseWriter P) (code : Z) : Outcome (ResponseWriter P) :=
  if wroteHeader w then Return w
  else if (code <? 100) || (999 <? code) then
    Panic ("invalid WriteHeader code " +:+ fmt.Sprint_d code)
  else
    Return {| Header := Header w; wroteHeader := true; Code := code;
              SentHeader := Header w; Body := Body w;
              WriteFails := WriteFails w |}.

(** [Write]: sends the status line with 200 if it has not gone out, then
    the data. *)
Definition Write {P} (w : ResponseWriter P) (c : Chunk P) : ResponseWriter P * option error :=
  let w1 :=
    if wroteHeader w then w
    else {| Header := Header w; wroteHeader := true; Code := 200;
            SentHeader := Header w; Body := Body w;
            WriteFails := WriteFails w |} in
  if WriteFails w1 then (w1, Some "write: broken pipe")
  else
    ({| Header := Header w1; wroteHeader := wroteHeader w1; Code := Code w1;
        SentHeader := SentHeader w1; Body := (Body w1 ++ [c])%list;
        WriteFails := WriteFails w1 |}, None).

(** [http.Error]: resets the content headers, calls [WriteHeader] and
    prints the message. *)
Definition Error {P} (w : ResponseWriter P) (msg : string) (code : Z) : Outcome (ResponseWriter P) :=
  let w := Del_Header w "Content-Length" in
  let w := Set_Header w "Content-Type" "text/plain; charset=utf-8" in
  let w := Set_Header w "X-Content-Type-Options" "nosniff" in
  match WriteHeader w code with
  | Panic m => Panic m
  | Return w => Return (fst (Write w (TextLine msg)))
  end.

Definition StatusOK : Z := 200.
Definition StatusBadRequest : Z := 400.
Definition StatusMethodNotAllowed : Z := 405.
Definition StatusInternalServerError : Z := 500.
Definition StatusServiceUnavailable : Z := 503.
Definition MethodGet : string := "GET".

End http.

(** ** Package service: the OpenWeatherMap client *)
Module service.

Record WeatherData := {
  ObservationTime : string;
  Country : string;
  City : string;
  Condition : string;
  TemperatureCategory : string
}.

(** One element of the [weather] array. *)
Record WeatherEntry := { Main : string }.

(** The nested structs [Main] and [Location] have one field each and are
    flattened into [Main_Temp] and [Location_Country]. *)
Record OpenWeatherMapResponse := {
  Weather : list WeatherEntry;
  Main_Temp : float;
  UnixSeconds : Z;
  Location_Country : string;
  Name : string;
  HttpCode : Z;
  Message : string
}.

(** [json.Unmarshal] into an [OpenWeatherMapResponse] and the formatting of
    a time in the host's zone belong to the Go runtime. *)
Class Codec := {
  json_Unmarshal : string -> Result OpenWeatherMapResponse;
  (** [time.Unix(sec, 0).Format("2006-01-02 15:04:05 MST")] *)
  time_Unix_Format : Z -> string
}.

Definition weatherCheckTime `{Codec} (response : OpenWeatherMapResponse) : string :=
  time_Unix_Format (UnixSeconds response).

(** The interface the handler consumes.  An implementation may keep state
    between calls (a mock counting its calls does), may panic, and returns
    a pointer that may be nil. *)
Class WeatherService (S : Type) := {
  WeatherService_GetWeather :
    S -> http.Context -> float -> float -> Outcome (S * Result (option WeatherData))
}.

Record OpenWeatherMapService := {
  apiKey : string;
  baseURL : string;
  httpClient : http.Client
}.

(** [New]; the client it builds talks to [network], which is told the
    client's global timeout. *)
Definition New (network : Z -> http.ClientRequest -> Result http.Response)
    (apiKey baseURL : string) (timeoutSec : Z) : OpenWeatherMapService :=
  {| apiKey := apiKey; baseURL := baseURL;
     httpClient := {| http.Timeout := timeoutSec;
                      http.Do := network timeoutSec |} |}.

Definition categorizeTemperature (tempFahrenheit : float) : string :=
  if (tempFahrenheit <? 50)%float then "cold"
  else if (50 <=? tempFahrenheit)%float && (tempFahrenheit <? 68)%float then "moderate"
  else "hot".

Definition buildAPIURL `{StrconvFloat} `{url.Lib} (srv : OpenWeatherMapService)
    (lat lon : float) : Result string :=
  match url.Parse (baseURL srv +:+ "/weather") with
  | Err err => Err err
  | Ok baseURL =>
      let params : url.Values := ∅ in
      let params := url.Add params "lat" (FormatFloat_f64 lat (-1)) in
      let params := url.Add params "lon" (FormatFloat_f64 lon (-1)) in
      let params := url.Add params "appid" (apiKey srv) in
      let baseURL := url.with_RawQuery baseURL (url.Encode params) in
      Ok (url.String_ baseURL)
  end.

(** The Fahrenheit value [GetWeather] computes from the Kelvin one. *)
Definition toFahrenheit (kelvin : float) : float :=
  ((kelvin - 273.15) * 9 / 5 + 32)%float.

Definition GetWeather `{StrconvFloat} `{url.Lib} `{Codec}
    (srv : OpenWeatherMapService) (ctx : http.Context) (lat lon : float)
    : Outcome (Result WeatherData) :=
  match buildAPIURL srv lat lon with
  | Err err => Return (Err ("failed to build API URL: " +:+ err))
  | Ok apiURL =>
  match http.NewRequestWithContext ctx "GET" apiURL with
  | Err err => Return (Err ("failed to create HTTP request: " +:+ err))
  | Ok req =>
  let req := http.Header_Set req "Accept" "application/json" in
  let req := http.Header_Set req "User-Agent" "Weather-API-Go/1.0" in
  match http.Do (httpClient srv) req with
  | Err err => Return (Err ("failed to make HTTP request: " +:+ err))
  | Ok resp =>
  match http.ReadAll_Body resp with
  | Err err => Return (Err ("failed to read response body: " +:+ err))
  | Ok body =>
  match json_Unmarshal body with
  | Err err => Return (Err ("failed to parse JSON response: " +:+ err))
  | Ok mapResponse =>
  if negb (HttpCode mapResponse =? 200) then
    Return (Err ("OpenWeatherMap API error (code " +:+ fmt.Sprint_d (HttpCode mapResponse)
                 +:+ "): " +:+ Message mapResponse))
  else
    let tempFahrenheit := toFahrenheit (Main_Temp mapResponse) in
    let observationTime := weatherCheckTime mapResponse in
    match Weather mapResponse with
    | [] => Panic "runtime error: index out of range [0] with length 0"
    | first :: _ =>
        Return (Ok {| ObservationTime := observationTime;
                      Country := Location_Country mapResponse;
                      City := Name mapResponse;
                      Condition := Main first;
                      TemperatureCategory := categorizeTemperature tempFahrenheit |})
    end
  end end end end end.

(** [*OpenWeatherMapService] implements [WeatherService]; it keeps no
    state of its own and returns a non-nil pointer on success. *)
#[global] Instance OpenWeatherMapService_WeatherService
    `{StrconvFloat} `{url.Lib} `{Codec} : WeatherService OpenWeatherMapService := {
  WeatherService_GetWeather srv ctx lat lon :=
    match GetWeather srv ctx lat lon with
    | Panic msg => Panic msg
    | Return (Err err) => Return (srv, Err err)
    | Return (Ok data) => Return (srv, Ok (Some data))
    end
}.

End service.

(** ** Package handler: the HTTP handler *)
Module handler.

Record ErrorResponse := { Error : string }.

(** The values handed to [sendJSONResponse] as [data interface{}]: an
    [ErrorResponse], a [*service.WeatherData] (possibly nil), or any value
    [encoding/json] refuses to encode. *)
Inductive Payload :=
| ErrorPayload (e : ErrorResponse)
| WeatherPayload (d : option service.WeatherData)
| UnsupportedPayload.

Abbreviation ResponseWriter := (http.ResponseWriter Payload).

Inductive LogEntry :=
| SlogInfo (msg : string) (attrs : list (string * string))
| LogPrintf (line : string).

Record WeatherHandler (S : Type) := {
  weatherService : S;
  externalApiTimeout : Z
}.
Arguments weatherService {S} _.
Arguments externalApiTimeout {S} _.

Definition New {S} (weatherService : S) (externalApiTimeout : Z) : WeatherHandler S :=
  {| weatherService := weatherService; externalApiTimeout := externalApiTimeout |}.

(** *** The handler's effects

    A handler call threads the response writer, the service behind the
    interface and the server log, and may panic. *)
Record State (S : Type) := {
  w : ResponseWriter;
  svc : S;
  logged : list LogEntry
}.
Arguments w {S} _.
Arguments svc {S} _.
Arguments logged {S} _.

Definition H (S A : Type) : Type := State S -> Outcome (A * State S).

Definition ret {S A} (a : A) : H S A := fun st => Return (a, st).

Definition bind {S A B} (m : H S A) (k : A -> H S B) : H S B :=
  fun st =>
    match m st with
    | Panic msg => Panic msg
    | Return (a, st') => k a st'
    end.

Notation "x <- m ;; k" := (bind m (fun x => k))
  (at level 100, m at next level, right associativity).
Notation "m ;; k" := (bind m (fun _ => k))
  (at level 100, right associativity).

Definition log {S} (entry : LogEntry) : H S unit :=
  fun st => Return (tt, {| w := w st; svc := svc st; logged := (logged st ++ [entry])%list |}).

(** Run a pure update of the response writer. *)
Definition on_writer {S A} (f : ResponseWriter -> Outcome (A * ResponseWriter)) : H S A :=
  fun st =>
    match f (w st) with
    | Panic msg => Panic msg
    | Return (a, w') => Return (a, {| w := w'; svc := svc st; logged := logged st |})
    end.

Definition set_header {S} (key value : string) : H S unit :=
  on_writer (fun w => Return (tt, http.Set_Header w key value)).

Definition write_header {S} (code : Z) : H S unit :=
  on_writer (fun w =>
    match http.WriteHeader w code with
    | Panic msg => Panic msg
    | Return w' => Return (tt, w')
    end).

(** [json.NewEncoder(w).Encode(data)]: a value that cannot be encoded is an
    error and nothing is written; otherwise the line is written and the
    error is that of the write. *)
Definition json_Encode {S} (data : Payload) : H S (option error) :=
  on_writer (fun w =>
    match data with
    | UnsupportedPayload => Return (Some "json: unsupported type", w)
    | _ => let '(w', err) := http.Write w (http.JSONLine data) in Return (err, w')
    end).

Definition http_Error {S} (msg : string) (code : Z) : H S unit :=
  on_writer (fun w =>
    match http.Error w msg code with
    | Panic m => Panic m
    | Return w' => Return (tt, w')
    end).

(** The call through the [WeatherService] interface. *)
Definition call_GetWeather {S} `{service.WeatherService S}
    (ctx : http.Context) (lat lon : float) : H S (Result (option service.WeatherData)) :=
  fun st =>
    match service.WeatherService_GetWeather (svc st) ctx lat lon with
    | Panic msg => Panic msg
    | Return (svc', r) => Return (r, {| w := w st; svc := svc'; logged := logged st |})
    end.

(** *** The handler *)

Definition parseCoordinates `{StrconvFloat} (r : http.Request) : Result (float * float) :=
  let latStr := url.Get (http.Query r) "lat" in
  let lonStr := url.Get (http.Query r) "lon" in
  if String.eqb latStr "" || String.eqb lonStr "" then
    Err "lat and lon query parameters are required"
  else
    match ParseFloat64 latStr with
    | Err _ => Err ("invalid latitude value: " +:+ latStr)
    | Ok lat =>
    match ParseFloat64 lonStr with
    | Err _ => Err ("invalid longitude value: " +:+ lonStr)
    | Ok lon =>
      if (lat <? -90)%float || (90 <? lat)%float then
        Err ("latitude must be between -90 and 90, got: " +:+ fmt.Sprint_f 4 lat)
      else if (lon <? -180)%float || (180 <? lon)%float then
        Err ("longitude must be between -180 and 180, got: " +:+ fmt.Sprint_f 4 lon)
      else Ok (lat, lon)
    end end.

Definition sendJSONResponse {S} (statusCode : Z) (data : Payload) : H S unit :=
  set_header "Content-Type" "application/json" ;;
  write_header statusCode ;;
  err <- json_Encode data ;;
  match err with
  | Some err =>
      log (LogPrintf ("Error encoding JSON response: " +:+ err)) ;;
      http_Error "Internal server error" http.StatusInternalServerError
  | None => ret tt
  end.

Definition sendErrorResponse {S} (statusCode : Z) (message : string) : H S unit :=
  let errorResp := {| Error := message |} in
  sendJSONResponse statusCode (ErrorPayload errorResp).

Definition GetWeather {S} `{StrconvFloat} `{service.WeatherService S}
    (wh : WeatherHandler S) (r : http.Request) : H S unit :=
  log (SlogInfo "GetWeather"
         [("method", http.Method r); ("path", http.Path r);
          ("remote-address", http.RemoteAddr r)]) ;;
  if negb (String.eqb (http.Method r) http.MethodGet) then
    sendErrorResponse http.StatusMethodNotAllowed "Method not allowed"
  else
    match parseCoordinates r with
    | Err err => sendErrorResponse http.StatusBadRequest err
    | Ok (lat, lon) =>
        let ctx := http.WithTimeout (http.Ctx r) (externalApiTimeout wh) in
        res <- call_GetWeather ctx lat lon ;;
        match res with
        | Err err =>
            log (LogPrintf ("Error fetching weather data: " +:+ err)) ;;
            sendErrorResponse http.StatusServiceUnavailable "Unable to fetch weather data"
        | Ok weatherData =>
            sendJSONResponse http.StatusOK (WeatherPayload weatherData) ;;
            log (LogPrintf ("Successfully served weather data for coordinates ("
                            +:+ fmt.Sprint_f 4 lat +:+ ", " +:+ fmt.Sprint_f 4 lon +:+ ")"))
        end
    end.

(** A handler call from the outside: the handler's service is the one
    behind the interface, the log starts empty. *)
Definition serve {S} `{StrconvFloat} `{service.WeatherService S}
    (wh : WeatherHandler S) (w0 : ResponseWriter) (r : http.Request)
    : Outcome (State S) :=
  match GetWeather wh r {| w := w0; svc := weatherService wh; logged := [] |} with
  | Panic msg => Panic msg
  | Return (_, st) => Return st
  end.

(** *** The health endpoint *)

(** [HealthCheck] writes a [map[string]string]. *)
Abbreviation HealthWriter := (http.ResponseWriter (gmap string string)).

(** [HealthCheck]; [timestamp] is what [time.Now().UTC().Format(time.RFC3339)]
    yields when the call is made.  The result of [Encode] is dropped. *)
Definition HealthCheck (timestamp : string) (w : HealthWriter) (r : http.Request)
    : Outcome HealthWriter :=
  if negb (String.eqb (http.Method r) http.MethodGet) then
    http.Error w "Method not allowed" http.StatusMethodNotAllowed
  else
    let response : gmap string string :=
      <["timestamp" := timestamp]> (<["status" := "ok"]> ∅) in
    let w := http.Set_Header w "Content-Type" "application/json" in
    Return (fst (http.Write w (http.JSONLine response))).

End handler.

(** ** The Go runtime the code runs on

    Executable models of the library functions behind the interfaces
    above.  [ParseFloat] follows strconv's reader (decimal and hexadecimal
    mantissas, digit-separating underscores, the special values) and rounds
    the exact value to the nearest binary64, ties to even. *)
Module GoRuntime.

Definition byte_of (c : ascii) : Z := Z.of_N (N_of_ascii c).

(** [lower(c)] is [c | 0x20]. *)
Definition lower (c : ascii) : Z := Z.lor (byte_of c) 32.

Definition is_hex_letter (c : ascii) : bool :=
  (97 <=? lower c) && (lower c <=? 102).

Definition to_lower_ascii (c : ascii) : ascii :=
  if (65 <=? byte_of c) && (byte_of c <=? 90)
  then ascii_of_N (Z.to_N (byte_of c + 32)) else c.

Fixpoint commonPrefixLenIgnoreCase (s prefix : string) : Z :=
  match s, prefix with
  | String c s', String p prefix' =>
      if Ascii.eqb (to_lower_ascii c) p
      then 1 + commonPrefixLenIgnoreCase s' prefix' else 0
  | _, _ => 0
  end.

Definition strlen (s : string) : Z := Z.of_nat (String.length s).

(** [special]: the value and the number of bytes consumed. *)
Definition special (s : string) : option (float * Z) :=
  let inf (neg : bool) (nsign : Z) (rest : string) :=
    let n := commonPrefixLenIgnoreCase rest "infinity" in
    let n := if (3 <? n) && (n <? 8) then 3 else n in
    if (n =? 3) || (n =? 8)
    then Some (if neg then neg_infinity else infinity, nsign + n)
    else None in
  match s with
  | EmptyString => None
  | String c rest =>
      if Ascii.eqb c "+" then inf false 1 rest
      else if Ascii.eqb c "-" then inf true 1 rest
      else if Ascii.eqb c "i" || Ascii.eqb c "I" then inf false 0 s
      else if Ascii.eqb c "n" || Ascii.eqb c "N" then
        if commonPrefixLenIgnoreCase s "nan" =? 3 then Some (nan, 3) else None
      else None
  end.

(** [underscoreOK]: underscores only between digits, or between a base
    prefix and a digit.  [saw] is the class of the last byte. *)
Inductive saw_class := SawStart | SawDigit | SawUnderscore | SawOther.

Fixpoint underscoreOK_loop (hex : bool) (saw : saw_class) (s : string) : bool :=
  match s with
  | EmptyString => match saw with SawUnderscore => false | _ => true end
  | String c s' =>
      if strconv.is_digit c || (hex && is_hex_letter c)
      then underscoreOK_loop hex SawDigit s'
      else if Ascii.eqb c "_" then
        match saw with
        | SawDigit => underscoreOK_loop hex SawUnderscore s'
        | _ => false
        end
      else
        match saw with
        | SawUnderscore => false
        | _ => underscoreOK_loop hex SawOther s'
        end
  end.

Definition underscoreOK (s : string) : bool :=
  let s :=
    match s with
    | String c r => if Ascii.eqb c "-" || Ascii.eqb c "+" then r else s
    | _ => s
    end in
  match s with
  | String c0 (String c1 r) =>
      if Ascii.eqb c0 "0" &&
         ((lower c1 =? 98) || (lower c1 =? 111) || (lower c1 =? 120))
      then underscoreOK_loop (lower c1 =? 120) SawDigit r
      else underscoreOK_loop false SawStart s
  | _ => underscoreOK_loop false SawStart s
  end.

(** The mantissa loop of [readFloat]. *)
Record mantissa_state := {
  sawdot : bool;
  sawdigits : bool;
  nd : Z;
  dp : Z;
  mantissa : Z;
  underscores : bool
}.

Fixpoint read_mantissa (hex : bool) (st : mantissa_state) (s : string)
    : mantissa_state * string :=
  match s with
  | EmptyString => (st, s)
  | String c s' =>
      if Ascii.eqb c "_" then
        read_mantissa hex
          {| sawdot := sawdot st; sawdigits := sawdigits st; nd := nd st;
             dp := dp st; mantissa := mantissa st; underscores := true |} s'
      else if Ascii.eqb c "." then
        if sawdot st then (st, s)
        else read_mantissa hex
               {| sawdot := true; sawdigits := sawdigits st; nd := nd st;
                  dp := nd st; mantissa := mantissa st;
                  underscores := underscores st |} s'
      else if strconv.is_digit c then
        if Ascii.eqb c "0" && (nd st =? 0) then
          read_mantissa hex
            {| sawdot := sawdot st; sawdigits := true; nd := nd st;
               dp := dp st - 1; mantissa := mantissa st;
               underscores := underscores st |} s'
        else
          read_mantissa hex
            {| sawdot := sawdot st; sawdigits := true; nd := nd st + 1;
               dp := dp st;
               mantissa := mantissa st * (if hex then 16 else 10) + strconv.digit_value c;
               underscores := underscores st |} s'
      else if hex && is_hex_letter c then
        read_mantissa hex
          {| sawdot := sawdot st; sawdigits := true; nd := nd st + 1;
             dp := dp st; mantissa := mantissa st * 16 + (lower c - 97 + 10);
             underscores := underscores st |} s'
      else (st, s)
  end.

(** The digits of the exponent; the value stops growing at 10000. *)
Fixpoint read_exponent (e : Z) (us : bool) (s : string) : Z * bool * string :=
  match s with
  | EmptyString => (e, us, s)
  | String c s' =>
      if strconv.is_digit c then
        read_exponent (if e <? 10000 then e * 10 + strconv.digit_value c else e) us s'
      else if Ascii.eqb c "_" then read_exponent e true s'
      else (e, us, s)
  end.

(** What [readFloat] finds: sign, base, all digits of the mantissa as an
    integer, the exponent of the base (of two for a hexadecimal mantissa),
    and the unread rest. *)
Record float_syntax := {
  neg : bool;
  hex : bool;
  digits : Z;
  exp : Z;
  rest : string
}.

Definition readFloat (s : string) : option float_syntax :=
  match s with
  | EmptyString => None
  | String c0 r0 =>
      let '(neg, s1) :=
        if Ascii.eqb c0 "+" then (false, r0)
        else if Ascii.eqb c0 "-" then (true, r0)
        else (false, s) in
      let '(hex, s2) :=
        match s1 with
        | String a (String b ((String _ _) as r)) =>
            if Ascii.eqb a "0" && (lower b =? 120) then (true, r) else (false, s1)
        | _ => (false, s1)
        end in
      let '(st, s3) :=
        read_mantissa hex
          {| sawdot := false; sawdigits := false; nd := 0; dp := 0;
             mantissa := 0; underscores := false |} s2 in
      if negb (sawdigits st) then None
      else
        let dp := if sawdot st then dp st else nd st in
        let '(dp, ndMant) := if hex then (dp * 4, nd st * 4) else (dp, nd st) in
        let finish (dp : Z) (us : bool) (rest : string) :=
          if us && negb (underscoreOK s) then None
          else Some {| neg := neg; hex := hex; digits := mantissa st;
                       exp := dp - ndMant; rest := rest |} in
        match s3 with
        | String c r =>
            if lower c =? (if hex then 112 else 101) then
              match r with
              | EmptyString => None
              | String d r' =>
                  let '(esign, r1) :=
                    if Ascii.eqb d "+" then (1, r')
                    else if Ascii.eqb d "-" then (-1, r')
                    else (1, r) in
                  match r1 with
                  | EmptyString => None
                  | String d1 _ =>
                      if strconv.is_digit d1 then
                        let '(e, us, r2) := read_exponent 0 (underscores st) r1 in
                        finish (dp + e * esign) us r2
                      else None
                  end
              end
            else if hex then None
            else finish dp (underscores st) s3
        | EmptyString => if hex then None else finish dp (underscores st) s3
        end
  end.

(** [digits * 10^exp] (or [digits * 2^exp]) rounded to binary64. *)
Definition round_to_float (f : float_syntax) : spec_float :=
  match digits f with
  | Z.pos m =>
      if hex f then binary_round prec emax (neg f) m (exp f)
      else if 0 <=? exp f then
        binary_round prec emax (neg f) (m * Z.to_pos (10 ^ exp f)) 0
      else
        let '(q, e, l) :=
          SFdiv_core_binary prec emax (Z.pos m) 0 (10 ^ (- exp f)) 0 in
        binary_round_aux prec emax (neg f) q e l
  | _ => S754_zero (neg f)
  end.

(** [strconv.ParseFloat(s, 64)]. *)
Definition ParseFloat (s : string) : Result float :=
  match special s with
  | Some (f, n) => if n =? strlen s then Ok f else Err strconv.ErrSyntax
  | None =>
      match readFloat s with
      | None => Err strconv.ErrSyntax
      | Some f =>
          match rest f with
          | EmptyString =>
              match round_to_float f with
              | S754_infinity _ => Err strconv.ErrRange
              | x => Ok (SF2Prim x)
              end
          | _ => Err strconv.ErrSyntax
          end
      end
  end.

(** *** [strconv.FormatFloat(x, 'f', -1, 64)]

    The shortest decimal that reads back as [x]: with [lower] and [upper]
    the midpoints between [x] and its neighbours (part of the interval
    when the mantissa is even), the digits of [x] are cut at the first
    position where rounding down or up stays inside the interval, and the
    nearer of the two is taken. *)

(** All three of [lower < x < upper], scaled by [10^scale] to integers. *)
Record shortest_interval := {
  scale : Z;
  lower_ : Z;
  value : Z;
  upper : Z;
  inclusive : bool
}.

Definition interval_of (m : positive) (e : Z) : shortest_interval :=
  let boundary := (Z.pos m =? 2 ^ 52) && negb (e =? -1074) in
  let sc := Z.max 0 (2 - e) in
  let unit := if 0 <=? e - 2 then 2 ^ (e - 2) else 5 ^ sc * 2 ^ (sc - (2 - e)) in
  {| scale := sc;
     lower_ := (4 * Z.pos m - (if boundary then 1 else 2)) * unit;
     value := 4 * Z.pos m * unit;
     upper := (4 * Z.pos m + 2) * unit;
     inclusive := Z.even (Z.pos m) |}.

Definition inside (i : shortest_interval) (c : Z) : bool :=
  if inclusive i then (lower_ i <=? c) && (c <=? upper i)
  else (lower_ i <? c) && (c <? upper i).

(** The candidate at position [j], from the most significant one down. *)
Fixpoint shortest_digits (i : shortest_interval) (j : nat) : Z :=
  let p := 10 ^ Z.of_nat j in
  let down := value i / p * p in
  let up := down + p in
  let okdown := inside i down in
  let okup := inside i up in
  let nearest :=
    match value i - down ?= up - value i with
    | Lt => down
    | Gt => up
    | Eq => if Z.even (down / p) then down else up
    end in
  if okdown && okup then nearest
  else if okdown then down
  else if okup then up
  else
    match j with
    | O => value i
    | S j' => shortest_digits i j'
    end.

Fixpoint trim_zeros_rev (l : list ascii) : list ascii :=
  match l with
  | "0"%char :: l' => trim_zeros_rev l'
  | _ => l
  end.

Definition trim_trailing_zeros (s : string) : string :=
  string_of_list_ascii (rev (trim_zeros_rev (rev (list_ascii_of_string s)))).

(** Positional notation of [n / 10^scale] without trailing zeros. *)
Definition positional (n sc : Z) : string :=
  let p := 10 ^ sc in
  let frac := trim_trailing_zeros (fmt.pad_left (Z.to_nat sc) (fmt.Sprint_d (n mod p))) in
  fmt.Sprint_d (n / p) +:+
  match frac with
  | EmptyString => ""
  | _ => "." +:+ frac
  end.

Definition FormatFloat_f_shortest (x : float) : string :=
  match Prim2SF x with
  | S754_nan => "NaN"
  | S754_infinity false => "+Inf"
  | S754_infinity true => "-Inf"
  | S754_zero s => if s then "-0" else "0"
  | S754_finite s m e =>
      let i := interval_of m e in
      let width := String.length (fmt.Sprint_d (upper i)) in
      (if s then "-" else "") +:+ positional (shortest_digits i width) (scale i)
  end.

(** A negative precision asks for the shortest form. *)
#[global] Instance strconv_float : StrconvFloat := {
  ParseFloat64 := ParseFloat;
  FormatFloat_f64 x prec :=
    if prec <? 0 then FormatFloat_f_shortest x else fmt.Sprint_f (Z.to_nat prec) x
}.

(** *** net/url on plain absolute URLs

    [scheme://host[:port]/path[?query]] with a lower-case scheme, a host of
    letters, digits, dots and hyphens, and a path of unreserved bytes: the
    URLs net/url takes apart and puts together again byte for byte.
    Anything else is reported as an error here, which net/url does only for
    part of it; the model is meant for URLs of this shape. *)
Record PlainURL := {
  before_query : string;
  RawQuery : string
}.

Definition is_lower_or_digit (c : ascii) : bool :=
  ((97 <=? byte_of c) && (byte_of c <=? 122)) || strconv.is_digit c.

Definition is_host_byte (c : ascii) : bool :=
  is_lower_or_digit c || Ascii.eqb c "." || Ascii.eqb c "-".

Definition is_path_byte (c : ascii) : bool :=
  url.is_unreserved c || Ascii.eqb c "/".

Fixpoint all_bytes (ok : ascii -> bool) (s : string) : bool :=
  match s with
  | EmptyString => true
  | String c s' => ok c && all_bytes ok s'
  end.

(** Split at the first byte that satisfies [stop]. *)
Fixpoint split_at (stop : ascii -> bool) (s : string) : string * string :=
  match s with
  | EmptyString => ("", "")
  | String c s' =>
      if stop c then ("", s)
      else let '(a, b) := split_at stop s' in (String c a, b)
  end.

Definition plain_authority (s : string) : bool :=
  let '(host, port) := split_at (Ascii.eqb ":") s in
  negb (String.eqb host "") && all_bytes is_host_byte host &&
  match port with
  | EmptyString => true
  | String _ p => all_bytes strconv.is_digit p
  end.

Definition plain_prefix (s : string) : bool :=
  let '(scheme, r) := split_at (Ascii.eqb ":") s in
  match scheme, r with
  | String c _, String _ (String "/" (String "/" r')) =>
      let '(authority, path) := split_at (Ascii.eqb "/") r' in
      negb (strconv.is_digit c) && all_bytes is_lower_or_digit scheme &&
      plain_authority authority && all_bytes is_path_byte path
  | _, _ => false
  end.

Definition is_query_byte (c : ascii) : bool :=
  (32 <? byte_of c) && (byte_of c <? 127) && negb (Ascii.eqb c "#").

Definition PlainURL_Parse (s : string) : Result PlainURL :=
  let '(p, q) := split_at (Ascii.eqb "?") s in
  let q := match q with String _ q' => q' | EmptyString => "" end in
  if plain_prefix p && all_bytes is_query_byte q
  then Ok {| before_query := p; RawQuery := q |}
  else Err "parse: not a plain absolute URL".

Definition PlainURL_String (u : PlainURL) : string :=
  before_query u +:+
  match RawQuery u with
  | EmptyString => ""
  | q => "?" +:+ q
  end.

#[global] Instance plain_url : url.Lib := {
  url.URL := PlainURL;
  url.Parse := PlainURL_Parse;
  url.with_RawQuery u q := {| before_query := before_query u; RawQuery := q |};
  url.String_ := PlainURL_String
}.

(** *** Decoding and time

    A decoder that knows the bodies of a fixture table and rejects every
    other body, in the manner of the repository's mock service; the time
    of a host whose zone is UTC. *)
Fixpoint lookup_body (table : list (string * service.OpenWeatherMapResponse))
    (body : string) : Result service.OpenWeatherMapResponse :=
  match table with
  | [] => Err "invalid character looking for beginning of value"
  | (b, r) :: table' => if String.eqb b body then Ok r else lookup_body table' body
  end.

Definition two_digits (n : Z) : string := fmt.pad_left 2 (fmt.Sprint_d n).

(** Civil date of a day count since 1970-01-01 (proleptic Gregorian). *)
Definition civil_from_days (days : Z) : Z * Z * Z :=
  let z := days + 719468 in
  let era := z / 146097 in
  let doe := z - era * 146097 in
  let yoe := (doe - doe / 1460 + doe / 36524 - doe / 146096) / 365 in
  let doy := doe - (365 * yoe + yoe / 4 - yoe / 100) in
  let mp := (5 * doy + 2) / 153 in
  let d := doy - (153 * mp + 2) / 5 + 1 in
  let m := if mp <? 10 then mp + 3 else mp - 9 in
  let y := yoe + era * 400 + (if m <=? 2 then 1 else 0) in
  (y, m, d).

Definition format_utc (sec : Z) : string :=
  let '(y, m, d) := civil_from_days (sec / 86400) in
  let s := sec mod 86400 in
  fmt.pad_left 4 (fmt.Sprint_d y) +:+ "-" +:+ two_digits m +:+ "-" +:+ two_digits d
  +:+ " " +:+ two_digits (s / 3600) +:+ ":" +:+ two_digits (s mod 3600 / 60)
  +:+ ":" +:+ two_digits (s mod 60) +:+ " UTC".

Definition fixture_codec (table : list (string * service.OpenWeatherMapResponse))
    : service.Codec :=
  {| service.json_Unmarshal := lookup_body table;
     service.time_Unix_Format := format_utc |}.

(** Single quotes stand for double quotes in the text of a fixture. *)
Fixpoint json_text (s : string) : string :=
  match s with
  | EmptyString => EmptyString
  | String c s' => String (if Ascii.eqb c "'" then "034"%char else c) (json_text s')
  end.

(** A network that answers every request with the same response. *)
Definition constant_network (resp : Result http.Response)
    : Z -> http.ClientRequest -> Result http.Response :=
  fun _ _ => resp.

(** *** The listener

    A host on which every port from 0 to 65535 can be opened and whose
    services database is the table built into package net; the port is
    written in decimal digits or as a service name. *)
Definition tcp_services : list string :=
  ["ftp"; "ftps"; "gopher"; "http"; "https"; "imap2"; "imap3"; "imaps";
   "pop3"; "pop3s"; "smtp"; "submissions"; "ssh"; "telnet"].

Definition listen_tcp (addr : string) : option error :=
  match addr with
  | String ":" service =>
      match strconv.digits_value 0 service with
      | Some n =>
          if n <=? 65535 then None
          else Some ("listen tcp: address " +:+ service +:+ ": invalid port")
      | None =>
          if existsb (String.eqb service) tcp_services then None
          else Some ("listen tcp: lookup tcp/" +:+ service +:+ ": unknown port")
      end
  | _ => Some ("listen tcp: address " +:+ addr +:+ ": missing port in address")
  end.

#[global] Instance host : net.Host := {
  net.Listen_tcp := listen_tcp
}.

End GoRuntime.

(** ** The repository's test doubles (weather_test.go) *)
Module handler_test.

(** [MockWeatherService]: fails with "mock error" when [shouldError] is
    set and returns [returnData] otherwise. *)
Record MockWeatherService := {
  shouldError : bool;
  returnData : option service.WeatherData
}.

#[global] Instance MockWeatherService_WeatherService
    : service.WeatherService MockWeatherService := {
  service.WeatherService_GetWeather m ctx lat lon :=
    if shouldError m then Return (m, Err "mock error")
    else Return (m, Ok (returnData m))
}.

(** A double that records the coordinates of every call it receives
    before answering like the mock it wraps. *)
Record RecordingService := {
  calls : list (float * float);
  inner : MockWeatherService
}.

#[global] Instance RecordingService_WeatherService
    : service.WeatherService RecordingService := {
  service.WeatherService_GetWeather m ctx lat lon :=
    let m' := {| calls := (calls m ++ [(lat, lon)])%list; inner := inner m |} in
    if shouldError (inner m) then Return (m', Err "mock error")
    else Return (m', Ok (returnData (inner m)))
}.

(** [httptest.NewRequest(method, "/weather?lat=..&lon=..", nil)]; an empty
    string leaves the parameter out. *)
Definition NewRequest (method lat lon : string) : http.Request :=
  let q : url.Values := ∅ in
  let q := if String.eqb lat "" then q else url.Add q "lat" lat in
  let q := if String.eqb lon "" then q else url.Add q "lon" lon in
  {| http.Method := method; http.Path := "/weather";
     http.RemoteAddr := "192.0.2.1:1234"; http.Query := q; http.Ctx := [] |}.

End handler_test.

(** ** What a response looks like *)

(** The writer after a response went out on it: the JSON content type set
    and sent with the status [code], and [body] added. *)
Definition responded (w0 : handler.ResponseWriter) (code : Z)
    (body : list (http.Chunk handler.Payload)) : handler.ResponseWriter :=
  {| http.Header := <["Content-Type" := "application/json"]> (http.Header w0);
     http.wroteHeader := true;
     http.Code := code;
     http.SentHeader := <["Content-Type" := "application/json"]> (http.Header w0);
     http.Body := (http.Body w0 ++ body)%list;
     http.WriteFails := http.WriteFails w0 |}.

(** The body of an error response. *)
Definition error_body (message : string) : list (http.Chunk handler.Payload) :=
  [http.JSONLine (handler.ErrorPayload {| handler.Error := message |})].

(** [|x| > bound], the way the specification words "out of range". *)
Definition exceeds (x bound : float) : bool := (bound <? abs x)%float.

(** ** What the upstream sends *)

(** The call reaches the upstream and reads [body] from the response
    [resp]: the URL is built, the request is created and carries the two
    headers, the exchange succeeds and the body is read to its end. *)
Definition upstream_answers `{StrconvFloat} `{url.Lib}
    (srv : service.OpenWeatherMapService) (ctx : http.Context) (lat lon : float)
    (resp : http.Response) (body : string) : Prop :=
  exists apiURL req,
    service.buildAPIURL srv lat lon = Ok apiURL /\
    http.NewRequestWithContext ctx "GET" apiURL = Ok req /\
    http.Do (service.httpClient srv)
      (http.Header_Set (http.Header_Set req "Accept" "application/json")
         "User-Agent" "Weather-API-Go/1.0") = Ok resp /\
    http.ReadAll_Body resp = Ok body.

(** The URL the specification describes: the parameters in the order lat,
    lon, appid, unescaped. *)
Definition spec_api_url `{StrconvFloat} (srv : service.OpenWeatherMapService)
    (lat lon : float) : string :=
  service.baseURL srv +:+ "/weather?lat=" +:+ FormatFloat_f64 lat (-1)
  +:+ "&lon=" +:+ FormatFloat_f64 lon (-1) +:+ "&appid=" +:+ service.apiKey srv.

(** The query string [buildAPIURL] computes: the keys in sorted order, the
    values escaped. *)
Definition api_query `{StrconvFloat} (srv : service.OpenWeatherMapService)
    (lat lon : float) : string :=
  "appid=" +:+ url.QueryEscape (service.apiKey srv)
  +:+ "&lat=" +:+ url.QueryEscape (FormatFloat_f64 lat (-1))
  +:+ "&lon=" +:+ url.QueryEscape (FormatFloat_f64 lon (-1)).

(** ** The service test's client (weather_server_test.go) *)
Module service_test.

(** [New(apiKey, "https://api.openweathermap.org/data/2.5", 10)], talking
    to an upstream that answers every request with [resp]. *)
Definition NewService (apiKey : string) (resp : Result http.Response)
    : service.OpenWeatherMapService :=
  service.New (GoRuntime.constant_network resp) apiKey
    "https://api.openweathermap.org/data/2.5" 10.

Definition respond (status : Z) (body : string) : Result http.Response :=
  Ok {| http.StatusCode := status; http.ReadAll_Body := Ok body |}.

(** Bodies and what [json.Unmarshal] makes of them. *)
Definition body_empty_weather : string :=
  GoRuntime.json_text "{'weather':[],'main':{'temp':293.15},'dt':1717626203,'cod':200}".

Definition decoded_empty_weather : service.OpenWeatherMapResponse :=
  {| service.Weather := []; service.Main_Temp := 293.15; service.UnixSeconds := 1717626203;
     service.Location_Country := ""; service.Name := ""; service.HttpCode := 200;
     service.Message := "" |}.

Definition body_new_york : string :=
  GoRuntime.json_text
    "{'weather':[{'main':'Clear'}],'main':{'temp':293.15},'dt':1717626203,'sys':{'country':'US'},'name':'New York','cod':200}".

Definition decoded_new_york : service.OpenWeatherMapResponse :=
  {| service.Weather := [{| service.Main := "Clear" |}]; service.Main_Temp := 293.15;
     service.UnixSeconds := 1717626203; service.Location_Country := "US";
     service.Name := "New York"; service.HttpCode := 200; service.Message := "" |}.

Definition body_invalid_key : string :=
  GoRuntime.json_text "{'cod':401,'message':'Invalid API key'}".

Definition decoded_invalid_key : service.OpenWeatherMapResponse :=
  {| service.Weather := []; service.Main_Temp := 0; service.UnixSeconds := 0;
     service.Location_Country := ""; service.Name := ""; service.HttpCode := 401;
     service.Message := "Invalid API key" |}.

Definition codec : service.Codec :=
  GoRuntime.fixture_codec
    [(body_empty_weather, decoded_empty_weather);
     (body_new_york, decoded_new_york);
     (body_invalid_key, decoded_invalid_key)].

End service_test.

(** ** Floating-point classes *)

(** A binary64 value that is a zero or a finite number: what
    [encoding/json] can decode into a [float64]. *)
Definition finite_or_zero (x : spec_float) : Prop :=
  match x with
  | S754_zero _ | S754_finite _ _ _ => True
  | _ => False
  end.

(** ** Counting and ordering *)

(** How often a byte occurs in a string. *)
Fixpoint count_byte (c : ascii) (s : string) : nat :=
  match s with
  | EmptyString => O
  | String c' s' => (if Ascii.eqb c' c then 1 else 0) + count_byte c s'
  end.

(** A key that orders the binary64 values other than NaN as [SFcompare]
    does: the class first, then exponent and mantissa, reversed below
    zero. *)
Definition float_key (x : spec_float) : option (Z * Z * Z) :=
  match x with
  | S754_nan => None
  | S754_infinity true => Some (0, 0, 0)
  | S754_finite true m e => Some (1, - e, Z.neg m)
  | S754_zero _ => Some (2, 0, 0)
  | S754_finite false m e => Some (3, e, Z.pos m)
  | S754_infinity false => Some (4, 0, 0)
  end.

Definition key_le (k1 k2 : Z * Z * Z) : Prop :=
  let '(a1, b1, c1) := k1 in
  let '(a2, b2, c2) := k2 in
  a1 < a2 \/ (a1 = a2 /\ (b1 < b2 \/ (b1 = b2 /\ c1 <= c2))).

Definition key_lt (k1 k2 : Z * Z * Z) : Prop :=
  let '(a1, b1, c1) := k1 in
  let '(a2, b2, c2) := k2 in
  a1 < a2 \/ (a1 = a2 /\ (b1 < b2 \/ (b1 = b2 /\ c1 < c2))).

(** The order of the categories, coldest first. *)
Definition category_rank (category : string) : nat :=
  if String.eqb category "cold" then 0
  else if String.eqb category "moderate" then 1
  else 2.

(** * Verified properties *)

(** ** Configuration *)

Lemma Getenv_unset (env : gmap string string) (name : string) :
  env !! name = None \/ env !! name = Some "" -> utils.Getenv env name = "".
Proof. unfold utils.Getenv. intros [-> | ->]; reflexivity. Qed.




(** *** [strconv.Atoi] reads back what [%d] prints *)












(** With the key set and a port that can be opened, no other variable stops
    the start-up. *)
Example startup_with_key_only :
  @main.startup GoRuntime.host
    {[ "OPENWEATHER_API_KEY" := "secret";
       "APP_SERVER_READ_TIMEOUT_SEC" := "soon";
       "APP_SERVER_PORT" := "" ]}
  = main.Serve
      {| main.Port := "8080"; main.OpenWeatherAPIKey := "secret";
         main.OpenWeatherBaseURL := "https://api.openweathermap.org/data/2.5";
         main.ReadTimeoutSec := 15; main.WriteTimeoutSec := 15;
         main.IdleTimeoutSec := 120; main.ClientTimeoutSec := 10;
         main.ServerShutdownTimeoutSec := 30 |}.
Proof. vm_compute. reflexivity. Qed.

(** ** The handler's responses *)

Lemma valid_code_check (code : Z) :
  100 <= code <= 999 -> (code <? 100) || (999 <? code) = false.
Proof. intros H. apply orb_false_iff. split; apply Z.ltb_ge; lia. Qed.

(** A JSON response on a writer that has sent nothing and works. *)
Lemma sendJSONResponse_fresh {S} (st : handler.State S) (code : Z) (data : handler.Payload) :
  http.wroteHeader (handler.w st) = false ->
  http.WriteFails (handler.w st) = false ->
  100 <= code <= 999 ->
  data <> handler.UnsupportedPayload ->
  handler.sendJSONResponse code data st =
  Return (tt, {| handler.w := responded (handler.w st) code [http.JSONLine data];
                 handler.svc := handler.svc st;
                 handler.logged := handler.logged st |}).
Proof.
  intros Hw Hf Hc Hd.
  destruct st as [[hd wh c sh b wf] sv lg]. cbn in Hw, Hf. subst wh wf.
  unfold handler.sendJSONResponse, handler.bind, handler.set_header,
    handler.write_header, handler.json_Encode, handler.on_writer, handler.ret,
    http.WriteHeader, http.Write, http.Set_Header, responded.
  cbn -[insert]. rewrite (valid_code_check code Hc). cbn -[insert].
  destruct data; try contradiction; reflexivity.
Qed.

Lemma sendErrorResponse_fresh {S} (st : handler.State S) (code : Z) (message : string) :
  http.wroteHeader (handler.w st) = false ->
  http.WriteFails (handler.w st) = false ->
  100 <= code <= 999 ->
  handler.sendErrorResponse code message st =
  Return (tt, {| handler.w := responded (handler.w st) code (error_body message);
                 handler.svc := handler.svc st;
                 handler.logged := handler.logged st |}).
Proof.
  intros Hw Hf Hc. unfold handler.sendErrorResponse.
  apply sendJSONResponse_fresh; auto; discriminate.
Qed.

(** What [sendJSONResponse] leaves behind when the encoder fails on a writer
    that has sent nothing: the status it was called with is on the wire. *)
Lemma sendJSONResponse_encode_failure {S} (st : handler.State S) (code : Z)
    (data : handler.Payload) :
  http.wroteHeader (handler.w st) = false ->
  100 <= code <= 999 ->
  data = handler.UnsupportedPayload \/ http.WriteFails (handler.w st) = true ->
  exists st',
    handler.sendJSONResponse code data st = Return (tt, st') /\
    http.Code (handler.w st') = code /\
    http.SentHeader (handler.w st') !! "Content-Type" = Some "application/json" /\
    http.Body (handler.w st') =
      (http.Body (handler.w st) ++
       if http.WriteFails (handler.w st) then []
       else [http.TextLine "Internal server error"])%list /\
    handler.svc st' = handler.svc st.
Proof.
  intros Hw Hc Hfail.
  destruct st as [[hd wh c sh b wf] sv lg]. cbn in Hw, Hfail. subst wh.
  unfold handler.sendJSONResponse, handler.bind, handler.set_header,
    handler.write_header, handler.json_Encode, handler.on_writer, handler.ret,
    handler.log, handler.http_Error, http.Error, http.WriteHeader, http.Write,
    http.Set_Header, http.Del_Header.
  cbn -[insert delete]. rewrite (valid_code_check code Hc). cbn -[insert delete].
  destruct Hfail as [-> | ->].
  - destruct wf; cbn -[insert delete]; eexists; (split; [reflexivity |]);
      cbn -[insert delete]; rewrite lookup_insert_eq, ?app_nil_r; auto.
  - destruct data; cbn -[insert delete]; eexists; (split; [reflexivity |]);
      cbn -[insert delete]; rewrite lookup_insert_eq, ?app_nil_r; auto.
Qed.

(** [sendJSONResponse] with a valid status on a writer that has sent nothing
    returns, with that status on the wire and the service untouched. *)
Lemma sendJSONResponse_status {S} (st : handler.State S) (code : Z) (data : handler.Payload) :
  http.wroteHeader (handler.w st) = false ->
  100 <= code <= 999 ->
  exists st',
    handler.sendJSONResponse code data st = Return (tt, st') /\
    http.Code (handler.w st') = code /\
    handler.svc st' = handler.svc st.
Proof.
  intros Hw Hc.
  destruct (http.WriteFails (handler.w st)) eqn:Hf.
  - destruct (sendJSONResponse_encode_failure st code data Hw Hc (or_intror Hf))
      as (st' & E & C & _ & _ & V). eauto.
  - destruct data.
    + eexists. split; [apply sendJSONResponse_fresh; auto; discriminate |]. auto.
    + eexists. split; [apply sendJSONResponse_fresh; auto; discriminate |]. auto.
    + destruct (sendJSONResponse_encode_failure st code handler.UnsupportedPayload Hw Hc
                  (or_introl eq_refl)) as (st' & E & C & _ & _ & V). eauto.
Qed.

(** The writer and the log a JSON response produces do not depend on what
    stands behind the service interface. *)
Lemma sendJSONResponse_service_free {S1 S2} (st1 : handler.State S1) (st2 : handler.State S2)
    (code : Z) (data : handler.Payload) :
  handler.w st1 = handler.w st2 ->
  handler.logged st1 = handler.logged st2 ->
  match handler.sendJSONResponse code data st1, handler.sendJSONResponse code data st2 with
  | Return (_, st1'), Return (_, st2') =>
      handler.w st1' = handler.w st2' /\ handler.logged st1' = handler.logged st2' /\
      handler.svc st1' = handler.svc st1 /\ handler.svc st2' = handler.svc st2
  | Panic m1, Panic m2 => m1 = m2
  | _, _ => False
  end.
Proof.
  intros Ew El.
  destruct st1 as [w1 sv1 lg1], st2 as [w2 sv2 lg2]. cbn in Ew, El. subst w2 lg2.
  destruct w1 as [hd wh c sh b wf].
  unfold handler.sendJSONResponse, handler.bind, handler.set_header,
    handler.write_header, handler.json_Encode, handler.on_writer, handler.ret,
    handler.log, handler.http_Error, http.Error, http.WriteHeader, http.Write,
    http.Set_Header, http.Del_Header.
  cbn -[insert delete].
  destruct wh; cbn -[insert delete].
  - destruct data, wf; cbn -[insert delete]; auto.
  - destruct ((code <? 100) || (999 <? code)); cbn -[insert delete]; [reflexivity |].
    destruct data, wf; cbn -[insert delete]; auto.
Qed.

(** The entry line every request logs. *)
Lemma serve_unfold {S} `{StrconvFloat} `{service.WeatherService S}
    (wh : handler.WeatherHandler S) (w0 : handler.ResponseWriter) (r : http.Request) :
  handler.serve wh w0 r =
  match
    (if negb (String.eqb (http.Method r) http.MethodGet) then
       handler.sendErrorResponse http.StatusMethodNotAllowed "Method not allowed"
     else
       match handler.parseCoordinates r with
       | Err err => handler.sendErrorResponse http.StatusBadRequest err
       | Ok (lat, lon) =>
           handler.bind
             (handler.call_GetWeather
                (http.WithTimeout (http.Ctx r) (handler.externalApiTimeout wh)) lat lon)
             (fun res =>
                match res with
                | Err err =>
                    handler.bind
                      (handler.log (handler.LogPrintf ("Error fetching weather data: " +:+ err)))
                      (fun _ => handler.sendErrorResponse http.StatusServiceUnavailable
                                  "Unable to fetch weather data")
                | Ok weatherData =>
                    handler.bind
                      (handler.sendJSONResponse http.StatusOK (handler.WeatherPayload weatherData))
                      (fun _ => handler.log
                         (handler.LogPrintf
                            ("Successfully served weather data for coordinates ("
                             +:+ fmt.Sprint_f 4 lat +:+ ", " +:+ fmt.Sprint_f 4 lon +:+ ")")))
                end)
       end)
      {| handler.w := w0; handler.svc := handler.weatherService wh;
         handler.logged :=
           [handler.SlogInfo "GetWeather"
              [("method", http.Method r); ("path", http.Path r);
               ("remote-address", http.RemoteAddr r)]] |}
  with
  | Panic msg => Panic msg
  | Return (_, st) => Return st
  end.
Proof. reflexivity. Qed.

(** C6.  A GET request whose parameters fail validation is answered with
    status 400 and the validation message; the service behind the interface
    is left as it was (it is not called), and the writer and the log are the
    same whatever implements the service. *)
Theorem validation_failure_makes_no_upstream_call
    {S} `{StrconvFloat} `{service.WeatherService S}
    (wh : handler.WeatherHandler S) (w0 : handler.ResponseWriter)
    (r : http.Request) (msg : string) :
  http.Method r = "GET" ->
  handler.parseCoordinates r = Err msg ->
  http.wroteHeader w0 = false ->
  exists w' lg,
    handler.serve wh w0 r =
      Return {| handler.w := w'; handler.svc := handler.weatherService wh;
                handler.logged := lg |} /\
    http.Code w' = 400 /\
    (http.WriteFails w0 = false -> w' = responded w0 400 (error_body msg)) /\
    forall S' (impl : service.WeatherService S') (wh' : handler.WeatherHandler S'),
      handler.serve wh' w0 r =
        Return {| handler.w := w'; handler.svc := handler.weatherService wh';
                  handler.logged := lg |}.
Proof.
  intros Hm Hp Hw.
  set (entry := [handler.SlogInfo "GetWeather"
                   [("method", http.Method r); ("path", http.Path r);
                    ("remote-address", http.RemoteAddr r)]]).
  assert (Hrun : forall S' (impl : service.WeatherService S') (wh' : handler.WeatherHandler S'),
             handler.serve wh' w0 r =
             match handler.sendErrorResponse 400 msg
                     {| handler.w := w0; handler.svc := handler.weatherService wh';
                        handler.logged := entry |} with
             | Panic m => Panic m
             | Return (_, st) => Return st
             end).
  { intros S' impl wh'. rewrite serve_unfold, Hp. unfold entry. rewrite Hm.
    change (negb (String.eqb "GET" http.MethodGet)) with false. reflexivity. }
  pose (st0 := {| handler.w := w0; handler.svc := handler.weatherService wh;
                  handler.logged := entry |}).
  destruct (sendJSONResponse_status st0 400
              (handler.ErrorPayload {| handler.Error := msg |}) Hw ltac:(lia))
    as ([w' sv' lg] & E & C & V).
  cbn in C, V. subst sv'.
  exists w', lg. split; [| split; [| split]].
  - rewrite Hrun. unfold handler.sendErrorResponse. fold st0. rewrite E. reflexivity.
  - exact C.
  - intros Hf.
    pose proof (sendErrorResponse_fresh st0 400 msg Hw Hf ltac:(lia)) as E'.
    unfold handler.sendErrorResponse in E'. rewrite E in E'. now inversion E'.
  - intros S' impl wh'. rewrite Hrun. unfold handler.sendErrorResponse.
    pose proof (sendJSONResponse_service_free st0
                  {| handler.w := w0; handler.svc := handler.weatherService wh';
                     handler.logged := entry |}
                  400 (handler.ErrorPayload {| handler.Error := msg |})
                  eq_refl eq_refl) as P.
    rewrite E in P.
    destruct (handler.sendJSONResponse 400 _ {| handler.w := w0; handler.svc := handler.weatherService wh' |})
      as [[u [w2 sv2 lg2]] | m]; [| contradiction].
    cbn in P. destruct P as (-> & -> & _ & ->). reflexivity.
Qed.

Lemma validation_failure_makes_no_upstream_call_witness :
  exists w' lg,
    @handler.serve _ GoRuntime.strconv_float handler_test.RecordingService_WeatherService
      (handler.New
         {| handler_test.calls := [];
            handler_test.inner := {| handler_test.shouldError := false;
                                     handler_test.returnData := None |} |} 10)
      http.NewRecorder (handler_test.NewRequest "GET" "91" "0")
    = Return {| handler.w := w';
                handler.svc :=
                  {| handler_test.calls := [];
                     handler_test.inner := {| handler_test.shouldError := false;
                                              handler_test.returnData := None |} |};
                handler.logged := lg |} /\
    http.Code w' = 400 /\
    http.Body w' = error_body "latitude must be between -90 and 90, got: 91.0000".
Proof.
  destruct (@validation_failure_makes_no_upstream_call _ GoRuntime.strconv_float
              handler_test.RecordingService_WeatherService
              (handler.New
                 {| handler_test.calls := [];
                    handler_test.inner := {| handler_test.shouldError := false;
                                             handler_test.returnData := None |} |} 10)
              http.NewRecorder (handler_test.NewRequest "GET" "91" "0")
              "latitude must be between -90 and 90, got: 91.0000"
              eq_refl ltac:(vm_compute; reflexivity) eq_refl)
    as (w' & lg & E & C & B & _).
  exists w', lg. split; [exact E |]. split; [exact C |].
  rewrite (B eq_refl). reflexivity.
Defined.

(** C3.  When the service returns an error to a valid GET request, the
    client gets status 503 and the fixed error body; the error itself goes to
    the server log only, so the response is the same for every error. *)
Theorem service_error_yields_opaque_503
    {S} `{StrconvFloat} `{service.WeatherService S}
    (wh : handler.WeatherHandler S) (w0 : handler.ResponseWriter)
    (r : http.Request) (lat lon : float) (svc' : S) (err : error) :
  http.Method r = "GET" ->
  handler.parseCoordinates r = Ok (lat, lon) ->
  service.WeatherService_GetWeather (handler.weatherService wh)
    (http.WithTimeout (http.Ctx r) (handler.externalApiTimeout wh)) lat lon
    = Return (svc', Err err) ->
  http.wroteHeader w0 = false ->
  http.WriteFails w0 = false ->
  handler.serve wh w0 r =
    Return {| handler.w := responded w0 503 (error_body "Unable to fetch weather data");
              handler.svc := svc';
              handler.logged :=
                [handler.SlogInfo "GetWeather"
                   [("method", http.Method r); ("path", http.Path r);
                    ("remote-address", http.RemoteAddr r)];
                 handler.LogPrintf ("Error fetching weather data: " +:+ err)] |}.
Proof.
  intros Hm Hp Hs Hw Hf.
  rewrite serve_unfold, Hm, Hp.
  change (negb (String.eqb "GET" http.MethodGet)) with false. cbv iota.
  unfold handler.bind at 1. unfold handler.call_GetWeather.
  cbn [handler.svc handler.w handler.logged]. rewrite Hs.
  unfold handler.bind, handler.log. cbn [handler.svc handler.w handler.logged app].
  rewrite sendErrorResponse_fresh by (auto; unfold http.StatusServiceUnavailable; lia).
  reflexivity.
Qed.

Lemma service_error_yields_opaque_503_witness :
  @handler.serve _ GoRuntime.strconv_float handler_test.MockWeatherService_WeatherService
    (handler.New {| handler_test.shouldError := true; handler_test.returnData := None |} 10)
    http.NewRecorder (handler_test.NewRequest "GET" "40.7" "-74.0")
  = Return {| handler.w := responded http.NewRecorder 503
                             (error_body "Unable to fetch weather data");
              handler.svc := {| handler_test.shouldError := true;
                                handler_test.returnData := None |};
              handler.logged :=
                [handler.SlogInfo "GetWeather"
                   [("method", "GET"); ("path", "/weather");
                    ("remote-address", "192.0.2.1:1234")];
                 handler.LogPrintf "Error fetching weather data: mock error"] |}.
Proof.
  apply (@service_error_yields_opaque_503 _ GoRuntime.strconv_float
           handler_test.MockWeatherService_WeatherService
           (handler.New {| handler_test.shouldError := true; handler_test.returnData := None |} 10)
           http.NewRecorder (handler_test.NewRequest "GET" "40.7" "-74.0")
           40.7 (-74.0) _ "mock error").
  - reflexivity.
  - vm_compute. reflexivity.
  - reflexivity.
  - reflexivity.
  - reflexivity.
Defined.

(** C8 (the code departs from it).  When the encoder fails, the status
    [sendJSONResponse] was called with is already on the wire together with
    the JSON content type: the later [WriteHeader(500)] of [http.Error] is
    superfluous, and only the text of the message can still reach the
    body. *)
Theorem encode_failure_keeps_original_status {S} (st : handler.State S) (code : Z)
    (data : handler.Payload) :
  http.wroteHeader (handler.w st) = false ->
  100 <= code <= 999 ->
  data = handler.UnsupportedPayload \/ http.WriteFails (handler.w st) = true ->
  exists st',
    handler.sendJSONResponse code data st = Return (tt, st') /\
    http.Code (handler.w st') = code /\
    http.SentHeader (handler.w st') !! "Content-Type" = Some "application/json" /\
    http.Body (handler.w st') =
      (http.Body (handler.w st) ++
       if http.WriteFails (handler.w st) then []
       else [http.TextLine "Internal server error"])%list.
Proof.
  intros Hw Hc Hfail.
  destruct (sendJSONResponse_encode_failure st code data Hw Hc Hfail)
    as (st' & E & C & T & B & _).
  exists st'. auto.
Qed.

Lemma encode_failure_keeps_original_status_witness :
  exists st',
    handler.sendJSONResponse 200 handler.UnsupportedPayload
      {| handler.w := http.NewRecorder; handler.svc := tt; handler.logged := [] |}
    = Return (tt, st') /\
    http.Code (handler.w st') = 200 /\
    http.SentHeader (handler.w st') !! "Content-Type" = Some "application/json" /\
    http.Body (handler.w st') = [http.TextLine "Internal server error"].
Proof.
  apply (encode_failure_keeps_original_status
           {| handler.w := http.NewRecorder; handler.svc := tt; handler.logged := [] |}
           200 handler.UnsupportedPayload).
  - reflexivity.
  - lia.
  - left. reflexivity.
Defined.

Lemma sendErrorResponse_status {S} (st : handler.State S) (code : Z) (message : string) :
  http.wroteHeader (handler.w st) = false ->
  100 <= code <= 999 ->
  exists st',
    handler.sendErrorResponse code message st = Return (tt, st') /\
    http.Code (handler.w st') = code.
Proof.
  intros Hw Hc. unfold handler.sendErrorResponse.
  destruct (sendJSONResponse_status st code
              (handler.ErrorPayload {| handler.Error := message |}) Hw Hc)
    as (st' & E & C & _).
  eauto.
Qed.

(** Whatever the request, the service and the state of the connection, a
    handler call that returns has sent 200, 400, 405 or 503. *)
Lemma serve_status {S} `{StrconvFloat} `{service.WeatherService S}
    (wh : handler.WeatherHandler S) (w0 : handler.ResponseWriter) (r : http.Request)
    (st : handler.State S) :
  http.wroteHeader w0 = false ->
  handler.serve wh w0 r = Return st ->
  http.Code (handler.w st) = 200 \/ http.Code (handler.w st) = 400 \/
  http.Code (handler.w st) = 405 \/ http.Code (handler.w st) = 503.
Proof.
  intros Hw. rewrite serve_unfold.
  set (st0 := {| handler.w := w0; handler.svc := handler.weatherService wh;
                 handler.logged := _ |}).
  destruct (negb (String.eqb (http.Method r) http.MethodGet)).
  - destruct (sendErrorResponse_status st0 405 "Method not allowed" Hw ltac:(lia))
      as (st' & E & C).
    unfold http.StatusMethodNotAllowed. rewrite E. intros [= <-]. auto.
  - destruct (handler.parseCoordinates r) as [[lat lon] | msg].
    + unfold handler.bind at 1, handler.call_GetWeather.
      destruct (service.WeatherService_GetWeather _ _ _ _) as [[svc' res] | m];
        [| discriminate].
      destruct res as [data | err].
      * unfold handler.bind, handler.log.
        set (st1 := {| handler.w := handler.w st0; handler.svc := svc';
                       handler.logged := handler.logged st0 |}).
        destruct (sendJSONResponse_status st1 200 (handler.WeatherPayload data) Hw ltac:(lia))
          as (st' & E & C & _).
        unfold http.StatusOK. rewrite E. cbn. intros [= <-]. cbn. auto.
      * unfold handler.bind at 1, handler.log.
        set (st1 := {| handler.w := handler.w _; handler.svc := handler.svc _;
                       handler.logged := _ |}).
        destruct (sendErrorResponse_status st1 503 "Unable to fetch weather data" Hw ltac:(lia))
          as (st' & E & C).
        unfold http.StatusServiceUnavailable. rewrite E. intros [= <-]. auto.
    + destruct (sendErrorResponse_status st0 400 msg Hw ltac:(lia)) as (st' & E & C).
      unfold http.StatusBadRequest. rewrite E. intros [= <-]. auto.
Qed.

(** ** Coordinates *)

(** Below [-b] or above [b] is the same as an absolute value above [b]. *)
Lemma SFltb_outside_abs (x : spec_float) (mb : positive) (eb : Z) :
  SFltb x (S754_finite true mb eb) || SFltb (S754_finite false mb eb) x =
  SFltb (S754_finite false mb eb) (SFabs x).
Proof.
  destruct x as [s | s | | s m e]; try (destruct s; reflexivity); try reflexivity.
  destruct s; unfold SFltb, SFcompare, SFabs.
  - rewrite orb_false_r. rewrite (Z.compare_antisym e eb).
    destruct (e ?= eb) eqn:E; cbn; try reflexivity.
    rewrite (Pos.compare_cont_antisym m mb Eq). cbn.
    destruct (Pos.compare_cont Eq m mb); reflexivity.
  - reflexivity.
Qed.

Lemma outside_exceeds_90 (x : float) :
  ((x <? -90) || (90 <? x))%float = exceeds x 90.
Proof.
  unfold exceeds. rewrite !ltb_spec, abs_spec.
  change (Prim2SF (-90)%float) with (S754_finite true 6333186975989760 (-46)).
  change (Prim2SF 90%float) with (S754_finite false 6333186975989760 (-46)).
  apply SFltb_outside_abs.
Qed.

Lemma outside_exceeds_180 (x : float) :
  ((x <? -180) || (180 <? x))%float = exceeds x 180.
Proof.
  unfold exceeds. rewrite !ltb_spec, abs_spec.
  change (Prim2SF (-180)%float) with (S754_finite true 6333186975989760 (-45)).
  change (Prim2SF 180%float) with (S754_finite false 6333186975989760 (-45)).
  apply SFltb_outside_abs.
Qed.

(** [parseCoordinates] as a table of its checks, in their order. *)
Lemma parseCoordinates_table `{StrconvFloat} (r : http.Request) :
  let latStr := url.Get (http.Query r) "lat" in
  let lonStr := url.Get (http.Query r) "lon" in
  handler.parseCoordinates r =
  if String.eqb latStr "" || String.eqb lonStr "" then
    Err "lat and lon query parameters are required"
  else
    match ParseFloat64 latStr, ParseFloat64 lonStr with
    | Err _, _ => Err ("invalid latitude value: " +:+ latStr)
    | Ok _, Err _ => Err ("invalid longitude value: " +:+ lonStr)
    | Ok lat, Ok lon =>
        if exceeds lat 90 then
          Err ("latitude must be between -90 and 90, got: " +:+ fmt.Sprint_f 4 lat)
        else if exceeds lon 180 then
          Err ("longitude must be between -180 and 180, got: " +:+ fmt.Sprint_f 4 lon)
        else Ok (lat, lon)
    end.
Proof.
  cbv zeta. unfold handler.parseCoordinates.
  destruct (String.eqb _ "" || String.eqb _ ""); [reflexivity |].
  destruct (ParseFloat64 (url.Get (http.Query r) "lat")) as [lat | e]; [| reflexivity].
  destruct (ParseFloat64 (url.Get (http.Query r) "lon")) as [lon | e]; [| reflexivity].
  rewrite outside_exceeds_90, outside_exceeds_180. reflexivity.
Qed.

(** C7.  [parseCoordinates] reports the first failing check: a missing or
    empty parameter; else an unparseable latitude, else an unparseable
    longitude, each with the raw text; else a latitude whose absolute value
    exceeds 90, else a longitude whose absolute value exceeds 180, each with
    the value to four decimals.  On the Go runtime, [lat=91] gives
    "latitude must be between -90 and 90, got: 91.0000". *)
Theorem parseCoordinates_check_order :
  (forall (F : StrconvFloat) (r : http.Request),
     let latStr := url.Get (http.Query r) "lat" in
     let lonStr := url.Get (http.Query r) "lon" in
     (latStr = "" \/ lonStr = "" ->
      handler.parseCoordinates r = Err "lat and lon query parameters are required") /\
     (latStr <> "" -> lonStr <> "" ->
      (forall e, ParseFloat64 latStr = Err e ->
         handler.parseCoordinates r = Err ("invalid latitude value: " +:+ latStr)) /\
      (forall lat e, ParseFloat64 latStr = Ok lat -> ParseFloat64 lonStr = Err e ->
         handler.parseCoordinates r = Err ("invalid longitude value: " +:+ lonStr)) /\
      (forall lat lon, ParseFloat64 latStr = Ok lat -> ParseFloat64 lonStr = Ok lon ->
         exceeds lat 90 = true ->
         handler.parseCoordinates r =
           Err ("latitude must be between -90 and 90, got: " +:+ fmt.Sprint_f 4 lat)) /\
      (forall lat lon, ParseFloat64 latStr = Ok lat -> ParseFloat64 lonStr = Ok lon ->
         exceeds lat 90 = false -> exceeds lon 180 = true ->
         handler.parseCoordinates r =
           Err ("longitude must be between -180 and 180, got: " +:+ fmt.Sprint_f 4 lon)) /\
      (forall lat lon, ParseFloat64 latStr = Ok lat -> ParseFloat64 lonStr = Ok lon ->
         exceeds lat 90 = false -> exceeds lon 180 = false ->
         handler.parseCoordinates r = Ok (lat, lon)))) /\
  @handler.parseCoordinates GoRuntime.strconv_float (handler_test.NewRequest "GET" "91" "0")
    = Err "latitude must be between -90 and 90, got: 91.0000" /\
  @handler.parseCoordinates GoRuntime.strconv_float (handler_test.NewRequest "GET" "0" "-180.5")
    = Err "longitude must be between -180 and 180, got: -180.5000" /\
  @handler.parseCoordinates GoRuntime.strconv_float (handler_test.NewRequest "GET" "abc" "0")
    = Err "invalid latitude value: abc" /\
  @handler.parseCoordinates GoRuntime.strconv_float (handler_test.NewRequest "GET" "91" "abc")
    = Err "invalid longitude value: abc" /\
  @handler.parseCoordinates GoRuntime.strconv_float (handler_test.NewRequest "GET" "" "abc")
    = Err "lat and lon query parameters are required".
Proof.
  split; [| repeat split; vm_compute; reflexivity].
  intros F r latStr lonStr.
  pose proof (parseCoordinates_table r) as T. cbv zeta in T. fold latStr lonStr in T.
  split.
  - intros [E | E]; rewrite T, E; [reflexivity |].
    rewrite orb_true_r. reflexivity.
  - intros Hlat Hlon.
    apply String.eqb_neq in Hlat, Hlon. rewrite Hlat, Hlon in T. cbn [orb] in T.
    repeat split.
    + intros e E. rewrite T, E. reflexivity.
    + intros lat e E1 E2. rewrite T, E1, E2. reflexivity.
    + intros lat lon E1 E2 X. rewrite T, E1, E2, X. reflexivity.
    + intros lat lon E1 E2 X1 X2. rewrite T, E1, E2, X1, X2. reflexivity.
    + intros lat lon E1 E2 X1 X2. rewrite T, E1, E2, X1, X2. reflexivity.
Qed.

Lemma parseCoordinates_check_order_witness :
  @handler.parseCoordinates GoRuntime.strconv_float (handler_test.NewRequest "GET" "0" "181")
  = Err ("longitude must be between -180 and 180, got: " +:+ fmt.Sprint_f 4 181).
Proof.
  destruct parseCoordinates_check_order as [Hgen _].
  destruct (Hgen GoRuntime.strconv_float (handler_test.NewRequest "GET" "0" "181"))
    as [_ Hpresent].
  destruct Hpresent as (_ & _ & _ & Hlon & _).
  - vm_compute. discriminate.
  - vm_compute. discriminate.
  - apply (Hlon 0%float 181%float).
    + vm_compute. reflexivity.
    + vm_compute. reflexivity.
    + vm_compute. reflexivity.
    + vm_compute. reflexivity.
Defined.

(** What validation does guarantee: an accepted coordinate is not below the
    lower bound and not above the upper one, so it lies in range unless it is
    NaN. *)
Lemma parseCoordinates_accepts `{StrconvFloat} (r : http.Request) (lat lon : float) :
  handler.parseCoordinates r = Ok (lat, lon) ->
  (lat <? -90)%float = false /\ (90 <? lat)%float = false /\
  (lon <? -180)%float = false /\ (180 <? lon)%float = false.
Proof.
  unfold handler.parseCoordinates.
  destruct (String.eqb _ "" || String.eqb _ ""); [discriminate |].
  destruct (ParseFloat64 _) as [lat' | e]; [| discriminate].
  destruct (ParseFloat64 _) as [lon' | e]; [| discriminate].
  destruct ((lat' <? -90)%float || (90 <? lat')%float) eqn:E1; [discriminate |].
  destruct ((lon' <? -180)%float || (180 <? lon')%float) eqn:E2; [discriminate |].
  intros [= -> ->].
  apply orb_false_iff in E1, E2. tauto.
Qed.

(** C2 (the code departs from it).  On the Go runtime the request
    [lat=NaN&lon=0] passes validation although NaN is not within
    [-90, 90], and the handler calls the service with it; the four
    boundary values are accepted, and 90.0000001 is rejected. *)
Theorem NaN_latitude_passes_validation :
  @handler.parseCoordinates GoRuntime.strconv_float (handler_test.NewRequest "GET" "NaN" "0")
    = Ok (nan, 0%float) /\
  (-90 <=? nan)%float && (nan <=? 90)%float = false /\
  match
    @handler.serve _ GoRuntime.strconv_float handler_test.RecordingService_WeatherService
      (handler.New
         {| handler_test.calls := [];
            handler_test.inner := {| handler_test.shouldError := false;
                                     handler_test.returnData := None |} |} 10)
      http.NewRecorder (handler_test.NewRequest "GET" "NaN" "0")
  with
  | Return st =>
      handler_test.calls (handler.svc st) = [(nan, 0%float)] /\
      http.Code (handler.w st) = 200
  | Panic _ => False
  end /\
  @handler.parseCoordinates GoRuntime.strconv_float (handler_test.NewRequest "GET" "90" "180")
    = Ok (90%float, 180%float) /\
  @handler.parseCoordinates GoRuntime.strconv_float (handler_test.NewRequest "GET" "-90" "-180")
    = Ok ((-90)%float, (-180)%float) /\
  @handler.parseCoordinates GoRuntime.strconv_float (handler_test.NewRequest "GET" "90.0000001" "0")
    = Err "latitude must be between -90 and 90, got: 90.0000".
Proof. repeat split; vm_compute; reflexivity. Qed.

(** ** The weather client *)

(** The client's URL: parse failure is passed on; otherwise the parsed base
    with the sorted, escaped query. *)
Lemma buildAPIURL_query `{StrconvFloat} `{url.Lib}
    (srv : service.OpenWeatherMapService) (lat lon : float) :
  service.buildAPIURL srv lat lon =
  match url.Parse (service.baseURL srv +:+ "/weather") with
  | Err err => Err err
  | Ok u => Ok (url.String_ (url.with_RawQuery u (api_query srv lat lon)))
  end.
Proof.
  unfold service.buildAPIURL, api_query.
  destruct (url.Parse _) as [u | e]; [| reflexivity].
  reflexivity.
Qed.

(** Once the body is read, the result is a function of the body alone. *)
Lemma GetWeather_after_body `{StrconvFloat} `{url.Lib} `{service.Codec}
    (srv : service.OpenWeatherMapService) (ctx : http.Context) (lat lon : float)
    (resp : http.Response) (body : string) :
  upstream_answers srv ctx lat lon resp body ->
  service.GetWeather srv ctx lat lon =
  match service.json_Unmarshal body with
  | Err err => Return (Err ("failed to parse JSON response: " +:+ err))
  | Ok mapResponse =>
      if negb (service.HttpCode mapResponse =? 200) then
        Return (Err ("OpenWeatherMap API error (code "
                     +:+ fmt.Sprint_d (service.HttpCode mapResponse)
                     +:+ "): " +:+ service.Message mapResponse))
      else
        match service.Weather mapResponse with
        | [] => Panic "runtime error: index out of range [0] with length 0"
        | first :: _ =>
            Return (Ok {| service.ObservationTime := service.weatherCheckTime mapResponse;
                          service.Country := service.Location_Country mapResponse;
                          service.City := service.Name mapResponse;
                          service.Condition := service.Main first;
                          service.TemperatureCategory :=
                            service.categorizeTemperature
                              (service.toFahrenheit (service.Main_Temp mapResponse)) |})
        end
  end.
Proof.
  intros (apiURL & req & E1 & E2 & E3 & E4).
  unfold service.GetWeather. rewrite E1, E2, E3, E4. reflexivity.
Qed.

(** C1 (the code departs from it).  A body that decodes with [cod] 200 and
    an empty [weather] array makes [GetWeather] panic on [Weather[0]]: no
    error is returned. *)
Theorem empty_weather_array_panics `{StrconvFloat} `{url.Lib} `{service.Codec}
    (srv : service.OpenWeatherMapService) (ctx : http.Context) (lat lon : float)
    (resp : http.Response) (body : string) (r : service.OpenWeatherMapResponse) :
  upstream_answers srv ctx lat lon resp body ->
  service.json_Unmarshal body = Ok r ->
  service.HttpCode r = 200 ->
  service.Weather r = [] ->
  service.GetWeather srv ctx lat lon =
    Panic "runtime error: index out of range [0] with length 0".
Proof.
  intros Hup Hdec Hcod Hw.
  rewrite (GetWeather_after_body srv ctx lat lon resp body Hup), Hdec, Hcod, Hw.
  reflexivity.
Qed.

(** C5.  After a body that decodes, [GetWeather] returns the error that
    carries [cod] and [message] when [cod] is not 200 and returns no error
    when it is 200; the result depends on the body only, not on the HTTP
    status of the response. *)
Theorem cod_decides_upstream_status `{StrconvFloat} `{url.Lib} `{service.Codec}
    (srv : service.OpenWeatherMapService) (ctx : http.Context) (lat lon : float)
    (resp : http.Response) (body : string) (r : service.OpenWeatherMapResponse) :
  upstream_answers srv ctx lat lon resp body ->
  service.json_Unmarshal body = Ok r ->
  (service.HttpCode r <> 200 ->
   service.GetWeather srv ctx lat lon =
     Return (Err ("OpenWeatherMap API error (code " +:+ fmt.Sprint_d (service.HttpCode r)
                  +:+ "): " +:+ service.Message r))) /\
  (service.HttpCode r = 200 ->
   forall e, service.GetWeather srv ctx lat lon <> Return (Err e)) /\
  (forall srv' ctx' lat' lon' resp',
     upstream_answers srv' ctx' lat' lon' resp' body ->
     service.GetWeather srv' ctx' lat' lon' = service.GetWeather srv ctx lat lon).
Proof.
  intros Hup Hdec.
  rewrite (GetWeather_after_body srv ctx lat lon resp body Hup), Hdec.
  split; [| split].
  - intros Hne. apply Z.eqb_neq in Hne. rewrite Hne. reflexivity.
  - intros -> e. cbn [Z.eqb Pos.eqb negb].
    destruct (service.Weather r); discriminate.
  - intros srv' ctx' lat' lon' resp' Hup'.
    rewrite (GetWeather_after_body srv' ctx' lat' lon' resp' body Hup'), Hdec.
    reflexivity.
Qed.

(** The test client reaches its upstream whatever the coordinates are. *)
Lemma test_client_reaches_upstream (status : Z) (body : string) :
  @upstream_answers GoRuntime.strconv_float GoRuntime.plain_url
    (service_test.NewService "secret" (service_test.respond status body))
    [10] 40.7128 (-74.006)
    {| http.StatusCode := status; http.ReadAll_Body := Ok body |} body.
Proof.
  unfold upstream_answers.
  eexists. eexists.
  split; [vm_compute; reflexivity |].
  split; [vm_compute; reflexivity |].
  split; reflexivity.
Defined.

Lemma empty_weather_array_panics_witness :
  @service.GetWeather GoRuntime.strconv_float GoRuntime.plain_url service_test.codec
    (service_test.NewService "secret"
       (service_test.respond 200 service_test.body_empty_weather))
    [10] 40.7128 (-74.006)
  = Panic "runtime error: index out of range [0] with length 0".
Proof.
  apply (@empty_weather_array_panics GoRuntime.strconv_float GoRuntime.plain_url
           service_test.codec _ _ _ _ _ _ service_test.decoded_empty_weather
           (test_client_reaches_upstream 200 service_test.body_empty_weather)).
  - vm_compute. reflexivity.
  - reflexivity.
  - reflexivity.
Defined.

Lemma cod_decides_upstream_status_witness :
  @service.GetWeather GoRuntime.strconv_float GoRuntime.plain_url service_test.codec
    (service_test.NewService "secret"
       (service_test.respond 200 service_test.body_invalid_key))
    [10] 40.7128 (-74.006)
  = Return (Err "OpenWeatherMap API error (code 401): Invalid API key") /\
  @service.GetWeather GoRuntime.strconv_float GoRuntime.plain_url service_test.codec
    (service_test.NewService "secret"
       (service_test.respond 401 service_test.body_invalid_key))
    [10] 40.7128 (-74.006)
  = @service.GetWeather GoRuntime.strconv_float GoRuntime.plain_url service_test.codec
      (service_test.NewService "secret"
         (service_test.respond 200 service_test.body_invalid_key))
      [10] 40.7128 (-74.006).
Proof.
  destruct (@cod_decides_upstream_status GoRuntime.strconv_float GoRuntime.plain_url
              service_test.codec _ _ _ _ _ _ service_test.decoded_invalid_key
              (test_client_reaches_upstream 200 service_test.body_invalid_key)
              ltac:(vm_compute; reflexivity)) as (Hne & _ & Hsame).
  split.
  - apply Hne. vm_compute. discriminate.
  - apply (Hsame _ _ _ _ _ (test_client_reaches_upstream 401 service_test.body_invalid_key)).
Defined.

(** C9 (as amended).  [buildAPIURL] passes on the error of [url.Parse] on
    [baseURL + "/weather"]; otherwise it returns the parsed URL, written out
    again, with the query [appid=..&lat=..&lon=..]: the keys in sorted
    order, every value query-escaped, the coordinates in the shortest
    decimal form. *)
Theorem buildAPIURL_sorted_query (F : StrconvFloat) (L : url.Lib)
    (srv : service.OpenWeatherMapService) (lat lon : float) :
  service.buildAPIURL srv lat lon =
  match url.Parse (service.baseURL srv +:+ "/weather") with
  | Err err => Err err
  | Ok u =>
      Ok (url.String_
            (url.with_RawQuery u
               ("appid=" +:+ url.QueryEscape (service.apiKey srv)
                +:+ "&lat=" +:+ url.QueryEscape (FormatFloat_f64 lat (-1))
                +:+ "&lon=" +:+ url.QueryEscape (FormatFloat_f64 lon (-1)))))
  end.
Proof. apply buildAPIURL_query. Qed.

(** C9 as stated fails: for the test client at New York's coordinates the
    key comes first in the URL, not last. *)
Lemma buildAPIURL_parameter_order_counterexample :
  @service.buildAPIURL GoRuntime.strconv_float GoRuntime.plain_url
    (service_test.NewService "secret" (service_test.respond 200 ""))
    40.7128 (-74.006)
  = Ok "https://api.openweathermap.org/data/2.5/weather?appid=secret&lat=40.7128&lon=-74.006" /\
  @spec_api_url GoRuntime.strconv_float
    (service_test.NewService "secret" (service_test.respond 200 ""))
    40.7128 (-74.006)
  = "https://api.openweathermap.org/data/2.5/weather?lat=40.7128&lon=-74.006&appid=secret" /\
  @service.buildAPIURL GoRuntime.strconv_float GoRuntime.plain_url
    (service_test.NewService "secret" (service_test.respond 200 ""))
    40.7128 (-74.006)
  <> Ok (@spec_api_url GoRuntime.strconv_float
           (service_test.NewService "secret" (service_test.respond 200 ""))
           40.7128 (-74.006)).
Proof.
  split; [vm_compute; reflexivity |].
  split; [vm_compute; reflexivity |].
  vm_compute. discriminate.
Qed.

(** The key is escaped as well: a key with a slash does not appear verbatim. *)
Example buildAPIURL_escapes_key :
  @service.buildAPIURL GoRuntime.strconv_float GoRuntime.plain_url
    (service_test.NewService "a/b c" (service_test.respond 200 "")) 0 0
  = Ok "https://api.openweathermap.org/data/2.5/weather?appid=a%2Fb+c&lat=0&lon=0".
Proof. vm_compute. reflexivity. Qed.

(** ** Temperature *)

(** *** Rounding never produces NaN *)
Section NeverNaN.
Variables prec emax : Z.

Lemma shr_1_nonneg (mrs : shr_record) : 0 <= shr_m mrs -> 0 <= shr_m (shr_1 mrs).
Proof.
  destruct mrs as [m r s]. destruct m as [| p | p]; cbn; intros Hm; try lia.
  destruct p; cbn; lia.
Qed.

Lemma iter_shr_1_nonneg (p : positive) (mrs : shr_record) :
  0 <= shr_m mrs -> 0 <= shr_m (SpecFloat.iter_pos shr_1 p mrs).
Proof.
  revert mrs. induction p as [p IH | p IH |]; cbn; intros mrs Hm.
  - apply IH, IH, shr_1_nonneg, Hm.
  - apply IH, IH, Hm.
  - apply shr_1_nonneg, Hm.
Qed.

Lemma shr_nonneg (mrs : shr_record) (e n : Z) :
  0 <= shr_m mrs -> 0 <= shr_m (fst (shr mrs e n)).
Proof.
  intros Hm. unfold shr. destruct n; cbn; auto using iter_shr_1_nonneg.
Qed.

Lemma shr_record_of_loc_m (m : Z) (l : location) : shr_m (shr_record_of_loc m l) = m.
Proof. destruct l as [| []]; reflexivity. Qed.

Lemma shr_fexp_nonneg (m e : Z) (l : location) :
  0 <= m -> 0 <= shr_m (fst (shr_fexp prec emax m e l)).
Proof.
  intros Hm. unfold shr_fexp. apply shr_nonneg. now rewrite shr_record_of_loc_m.
Qed.

Lemma round_nearest_even_nonneg (m : Z) (l : location) :
  0 <= m -> 0 <= round_nearest_even m l.
Proof.
  intros Hm. unfold round_nearest_even.
  destruct l as [| []]; try lia. destruct (Z.even m); lia.
Qed.

Lemma binary_round_aux_not_nan (sx : bool) (mx ex : Z) (lx : location) :
  0 <= mx -> binary_round_aux prec emax sx mx ex lx <> S754_nan.
Proof.
  intros Hm. unfold binary_round_aux.
  pose proof (shr_fexp_nonneg mx ex lx Hm) as H1.
  destruct (shr_fexp prec emax mx ex lx) as [mrs' e']. cbn [fst] in H1.
  pose proof (shr_fexp_nonneg _ e' loc_Exact
                (round_nearest_even_nonneg _ (loc_of_shr_record mrs') H1)) as H2.
  destruct (shr_fexp prec emax _ e' loc_Exact) as [mrs'' e'']. cbn [fst] in H2.
  destruct (shr_m mrs'') as [| p | p]; try discriminate; try lia.
  destruct (e'' <=? emax - prec); discriminate.
Qed.

Lemma binary_round_not_nan (sx : bool) (mx : positive) (ex : Z) :
  binary_round prec emax sx mx ex <> S754_nan.
Proof.
  unfold binary_round. destruct (shl_align _ _ _) as [mz ez].
  apply binary_round_aux_not_nan. lia.
Qed.

Lemma binary_normalize_not_nan (m e : Z) (szero : bool) :
  binary_normalize prec emax m e szero <> S754_nan.
Proof.
  unfold binary_normalize. destruct m; try discriminate; apply binary_round_not_nan.
Qed.

Lemma SFsub_not_nan (x : spec_float) (sy : bool) (my : positive) (ey : Z) :
  finite_or_zero x -> SFsub prec emax x (S754_finite sy my ey) <> S754_nan.
Proof.
  destruct x as [s | s | | s m e]; cbn; try contradiction; intros _.
  - discriminate.
  - apply binary_normalize_not_nan.
Qed.

Lemma SFmul_not_nan (x : spec_float) (sy : bool) (my : positive) (ey : Z) :
  x <> S754_nan -> SFmul prec emax x (S754_finite sy my ey) <> S754_nan.
Proof.
  destruct x as [s | s | | s m e]; cbn; try discriminate; try contradiction; intros _.
  apply binary_round_aux_not_nan. lia.
Qed.

Lemma SFdiv_not_nan (x : spec_float) (sy : bool) (my : positive) (ey : Z) :
  x <> S754_nan -> SFdiv prec emax x (S754_finite sy my ey) <> S754_nan.
Proof.
  destruct x as [s | s | | s m e]; cbn -[SFdiv_core_binary];
    try discriminate; try contradiction; intros _.
  unfold SFdiv_core_binary.
  set (m' := match _ - _ - _ with Z.pos _ => _ | Z0 => _ | Z.neg _ => _ end).
  assert (Hm' : 0 <= m').
  { subst m'. destruct (_ - _ - _); try lia. apply Z.shiftl_nonneg. lia. }
  pose proof (Z.div_pos m' (Z.pos my) Hm' ltac:(lia)) as Hq.
  unfold Z.div in Hq. destruct (Z.div_eucl m' (Z.pos my)) as [q r].
  apply binary_round_aux_not_nan, Hq.
Qed.

Lemma SFadd_not_nan (x : spec_float) (sy : bool) (my : positive) (ey : Z) :
  x <> S754_nan -> SFadd prec emax x (S754_finite sy my ey) <> S754_nan.
Proof.
  destruct x as [s | s | | s m e]; cbn; try discriminate; try contradiction; intros _.
  apply binary_normalize_not_nan.
Qed.

End NeverNaN.

(** *** Comparisons *)

Lemma SFcompare_antisym (x y : spec_float) :
  SFcompare y x = option_map CompOpp (SFcompare x y).
Proof.
  destruct x as [s1 | s1 | | s1 m1 e1], y as [s2 | s2 | | s2 m2 e2];
    try (destruct s1; reflexivity); try (destruct s2; reflexivity);
    try (destruct s1, s2; reflexivity); try reflexivity.
  unfold SFcompare. cbn [option_map]. f_equal.
  destruct s1, s2; try reflexivity;
    rewrite (Z.compare_antisym e1 e2);
    destruct (e1 ?= e2); cbn; try reflexivity;
    rewrite (Pos.compare_cont_antisym m1 m2 Eq); cbn;
    destruct (Pos.compare_cont Eq m1 m2); reflexivity.
Qed.

Lemma SFcompare_finite_some (x : spec_float) (s : bool) (m : positive) (e : Z) :
  x <> S754_nan -> exists o, SFcompare x (S754_finite s m e) = Some o.
Proof.
  destruct x as [s1 | s1 | | s1 m1 e1]; cbn; try contradiction; eauto.
Qed.

(** Not below a finite bound is at least the bound, for anything but NaN. *)
Lemma SFltb_false_leb (x : spec_float) (s : bool) (m : positive) (e : Z) :
  x <> S754_nan ->
  SFltb x (S754_finite s m e) = false -> SFleb (S754_finite s m e) x = true.
Proof.
  intros Hx. destruct (SFcompare_finite_some x s m e Hx) as [o Ho].
  unfold SFltb, SFleb. rewrite (SFcompare_antisym x), Ho.
  destruct o; cbn; congruence.
Qed.

Lemma SFleb_true_ltb (x y : spec_float) :
  SFleb y x = true -> SFltb x y = false.
Proof.
  unfold SFltb, SFleb. rewrite (SFcompare_antisym x y).
  destruct (SFcompare x y) as [[] |]; cbn; congruence.
Qed.

(** At least 68 is not below 50. *)
Lemma SFleb_68_not_ltb_50 (x : spec_float) :
  SFleb (Prim2SF 68) x = true -> SFltb x (Prim2SF 50) = false.
Proof.
  change (Prim2SF 68) with (S754_finite false 4785074604081152 (-46)).
  change (Prim2SF 50) with (S754_finite false 7036874417766400 (-47)).
  destruct x as [s | s | | s m e].
  - destruct s; cbn; congruence.
  - destruct s; cbn; congruence.
  - cbn; congruence.
  - unfold SFleb, SFltb, SFcompare. destruct s; cbv beta iota; [congruence |].
    destruct (Z.compare_spec (-46) e) as [E | E | E]; try discriminate;
      destruct (Z.compare_spec e (-47)) as [E' | E' | E']; try lia; reflexivity.
Qed.

Lemma is_finite_finite_or_zero (x : float) :
  is_finite x = true -> finite_or_zero (Prim2SF x).
Proof.
  unfold is_finite, is_nan, is_infinity. rewrite !FloatAxioms.eqb_spec, abs_spec.
  change (Prim2SF infinity) with (S754_infinity false).
  destruct (Prim2SF x) as [s | s | | s m e]; cbn; try easy.
  destruct s; cbn; discriminate.
Qed.

(** The Fahrenheit value of a finite Kelvin value is not NaN: it is a
    number or, on overflow, an infinity. *)
Lemma toFahrenheit_not_nan (K : float) :
  is_finite K = true -> Prim2SF (service.toFahrenheit K) <> S754_nan.
Proof.
  intros HK. apply is_finite_finite_or_zero in HK.
  unfold service.toFahrenheit. rewrite add_spec, div_spec, mul_spec, sub_spec.
  change (Prim2SF 273.15) with (S754_finite false 4805305618032230 (-44)).
  change (Prim2SF 9) with (S754_finite false 5066549580791808 (-49)).
  change (Prim2SF 5) with (S754_finite false 5629499534213120 (-50)).
  change (Prim2SF 32) with (S754_finite false 4503599627370496 (-47)).
  apply SFadd_not_nan, SFdiv_not_nan, SFmul_not_nan, SFsub_not_nan, HK.
Qed.

(** The category in terms of the four comparisons the code and the
    specification make. *)
Lemma category_cases (lt50 ge50 lt68 ge68 : bool) :
  (lt50 = false -> ge50 = true) ->
  (ge50 = true -> lt50 = false) ->
  (lt68 = false -> ge68 = true) ->
  (ge68 = true -> lt68 = false) ->
  (ge68 = true -> lt50 = false) ->
  let c := if lt50 then "cold" else if ge50 && lt68 then "moderate" else "hot" in
  (c = "cold" \/ c = "moderate" \/ c = "hot") /\
  (c = "cold" <-> lt50 = true) /\
  (c = "moderate" <-> ge50 = true /\ lt68 = true) /\
  (c = "hot" <-> ge68 = true).
Proof.
  destruct lt50, ge50, lt68, ge68; cbn; intros H1 H2 H3 H4 H5;
    try (specialize (H1 eq_refl)); try (specialize (H2 eq_refl));
    try (specialize (H3 eq_refl)); try (specialize (H4 eq_refl));
    try (specialize (H5 eq_refl)); try discriminate;
    repeat split; auto; try discriminate; try (intros [? ?]; discriminate).
Qed.

(** What a successful call reports as the category. *)
Lemma GetWeather_category `{StrconvFloat} `{url.Lib} `{service.Codec}
    (srv : service.OpenWeatherMapService) (ctx : http.Context) (lat lon : float)
    (resp : http.Response) (body : string) (r : service.OpenWeatherMapResponse)
    (data : service.WeatherData) :
  upstream_answers srv ctx lat lon resp body ->
  service.json_Unmarshal body = Ok r ->
  service.GetWeather srv ctx lat lon = Return (Ok data) ->
  service.TemperatureCategory data =
    service.categorizeTemperature (service.toFahrenheit (service.Main_Temp r)).
Proof.
  intros Hup Hdec.
  rewrite (GetWeather_after_body srv ctx lat lon resp body Hup), Hdec.
  destruct (negb (service.HttpCode r =? 200)); [discriminate |].
  destruct (service.Weather r); [discriminate |].
  intros [= <-]. reflexivity.
Qed.

(** C4.  For a Kelvin temperature [K] that JSON can carry (a finite
    binary64), the Fahrenheit value the code computes is
    [F = (K - 273.15) * 9 / 5 + 32] in binary64 arithmetic, and the category
    computed from it is one of "cold", "moderate", "hot": "cold" exactly
    when [F < 50], "moderate" exactly when [50 <= F < 68], "hot" exactly when
    [F >= 68]; it is the category a successful [GetWeather] returns; 50 is
    "moderate", 68 is "hot", 49.999 is "cold"; and 283.15 K, which is 50 F,
    is "moderate", 293.15 K, which is 68 F, is "hot", 283.14 K is "cold". *)
Theorem temperature_category_by_fahrenheit (K : float) :
  is_finite K = true ->
  let F := ((K - 273.15) * 9 / 5 + 32)%float in
  let c := service.categorizeTemperature F in
  service.toFahrenheit K = F /\
  Prim2SF F =
    SFadd prec emax
      (SFdiv prec emax
         (SFmul prec emax
            (SFsub prec emax (Prim2SF K) (Prim2SF 273.15)) (Prim2SF 9))
         (Prim2SF 5))
      (Prim2SF 32) /\
  (c = "cold" \/ c = "moderate" \/ c = "hot") /\
  (c = "cold" <-> (F <? 50)%float = true) /\
  (c = "moderate" <-> (50 <=? F)%float = true /\ (F <? 68)%float = true) /\
  (c = "hot" <-> (68 <=? F)%float = true) /\
  (forall (SF : StrconvFloat) (L : url.Lib) (C : service.Codec)
          srv ctx lat lon resp body r data,
     upstream_answers srv ctx lat lon resp body ->
     service.json_Unmarshal body = Ok r ->
     service.Main_Temp r = K ->
     service.GetWeather srv ctx lat lon = Return (Ok data) ->
     service.TemperatureCategory data = c) /\
  service.categorizeTemperature 50 = "moderate" /\
  service.categorizeTemperature 68 = "hot" /\
  service.categorizeTemperature 49.999 = "cold" /\
  service.toFahrenheit 283.15 = 50%float /\
  service.toFahrenheit 293.15 = 68%float /\
  service.categorizeTemperature (service.toFahrenheit 283.15) = "moderate" /\
  service.categorizeTemperature (service.toFahrenheit 293.15) = "hot" /\
  service.categorizeTemperature (service.toFahrenheit 283.14) = "cold".
Proof.
  intros HK F c.
  assert (EF : service.toFahrenheit K = F) by reflexivity.
  pose proof (toFahrenheit_not_nan K HK) as Hnn. rewrite EF in Hnn.
  assert (T : (c = "cold" \/ c = "moderate" \/ c = "hot") /\
              (c = "cold" <-> (F <? 50)%float = true) /\
              (c = "moderate" <-> (50 <=? F)%float = true /\ (F <? 68)%float = true) /\
              (c = "hot" <-> (68 <=? F)%float = true)).
  { subst c. unfold service.categorizeTemperature.
    apply category_cases; rewrite ?ltb_spec, ?leb_spec.
    - apply SFltb_false_leb, Hnn.
    - apply SFleb_true_ltb.
    - apply SFltb_false_leb, Hnn.
    - apply SFleb_true_ltb.
    - apply SFleb_68_not_ltb_50. }
  destruct T as (T1 & T2 & T3 & T4).
  split; [exact EF |].
  split; [subst F; rewrite add_spec, div_spec, mul_spec, sub_spec; reflexivity |].
  repeat (split; [assumption |]).
  split; [| repeat split; vm_compute; reflexivity].
  intros SF L C srv ctx lat lon resp body r data Hup Hdec HT Hget.
  subst c. rewrite <- EF, <- HT. eapply GetWeather_category; eauto.
Qed.

Lemma temperature_category_by_fahrenheit_witness :
  service.toFahrenheit 293.15 = ((293.15 - 273.15) * 9 / 5 + 32)%float /\
  service.categorizeTemperature ((293.15 - 273.15) * 9 / 5 + 32) = "hot" /\
  (service.categorizeTemperature ((293.15 - 273.15) * 9 / 5 + 32) = "hot" <->
   (68 <=? (293.15 - 273.15) * 9 / 5 + 32)%float = true) /\
  @service.GetWeather GoRuntime.strconv_float GoRuntime.plain_url service_test.codec
    (service_test.NewService "secret" (service_test.respond 200 service_test.body_new_york))
    [10] 40.7128 (-74.006)
  = Return (Ok {| service.ObservationTime := "2024-06-05 22:23:23 UTC";
                  service.Country := "US"; service.City := "New York";
                  service.Condition := "Clear";
                  service.TemperatureCategory := "hot" |}).
Proof.
  destruct (temperature_category_by_fahrenheit 293.15 eq_refl)
    as (Hconv & _ & _ & _ & _ & Hhot & _).
  split; [exact Hconv |].
  split; [vm_compute; reflexivity |].
  split; [exact Hhot |].
  vm_compute. reflexivity.
Defined.

(** The hypothesis of C4 is needed for the function alone: NaN, which no
    JSON number decodes to, falls through to "hot" without being at least
    68. *)
Example categorizeTemperature_NaN :
  service.categorizeTemperature nan = "hot" /\ (68 <=? nan)%float = false.
Proof. split; reflexivity. Qed.

(** ** The scenarios of the specification, run on the model *)

(** Scenario 1: New York, 293.15 K. *)
Example scenario_success :
  @handler.serve _ GoRuntime.strconv_float
    (@service.OpenWeatherMapService_WeatherService GoRuntime.strconv_float
       GoRuntime.plain_url service_test.codec)
    (handler.New
       (service_test.NewService "secret"
          (service_test.respond 200 service_test.body_new_york)) 10)
    http.NewRecorder (handler_test.NewRequest "GET" "40.7128" "-74.0060")
  = Return
      {| handler.w :=
           responded http.NewRecorder 200
             [http.JSONLine
                (handler.WeatherPayload
                   (Some {| service.ObservationTime := "2024-06-05 22:23:23 UTC";
                            service.Country := "US"; service.City := "New York";
                            service.Condition := "Clear";
                            service.TemperatureCategory := "hot" |}))];
         handler.svc :=
           service_test.NewService "secret"
             (service_test.respond 200 service_test.body_new_york);
         handler.logged :=
           [handler.SlogInfo "GetWeather"
              [("method", "GET"); ("path", "/weather");
               ("remote-address", "192.0.2.1:1234")];
            handler.LogPrintf
              "Successfully served weather data for coordinates (40.7128, -74.0060)"] |}.
Proof. vm_compute. reflexivity. Qed.

(** Scenario 4: a method other than GET. *)
Example scenario_method_not_allowed :
  match
    @handler.serve _ GoRuntime.strconv_float handler_test.MockWeatherService_WeatherService
      (handler.New {| handler_test.shouldError := false; handler_test.returnData := None |} 10)
      http.NewRecorder (handler_test.NewRequest "POST" "0" "0")
  with
  | Return st =>
      handler.w st = responded http.NewRecorder 405 (error_body "Method not allowed")
  | Panic _ => False
  end.
Proof. vm_compute. reflexivity. Qed.

(** Scenario 5: the upstream rejects the key; the client sees the opaque
    503 and the detail is in the log. *)
Example scenario_invalid_key :
  @handler.serve _ GoRuntime.strconv_float
    (@service.OpenWeatherMapService_WeatherService GoRuntime.strconv_float
       GoRuntime.plain_url service_test.codec)
    (handler.New
       (service_test.NewService "wrong"
          (service_test.respond 401 service_test.body_invalid_key)) 10)
    http.NewRecorder (handler_test.NewRequest "GET" "40.7128" "-74.0060")
  = Return
      {| handler.w :=
           responded http.NewRecorder 503 (error_body "Unable to fetch weather data");
         handler.svc :=
           service_test.NewService "wrong"
             (service_test.respond 401 service_test.body_invalid_key);
         handler.logged :=
           [handler.SlogInfo "GetWeather"
              [("method", "GET"); ("path", "/weather");
               ("remote-address", "192.0.2.1:1234")];
            handler.LogPrintf
              "Error fetching weather data: OpenWeatherMap API error (code 401): Invalid API key"] |}.
Proof. vm_compute. reflexivity. Qed.

(** Scenario 6: the exchange fails (an expired deadline, a refused
    connection): the same 503. *)
Example scenario_transport_failure :
  match
    @handler.serve _ GoRuntime.strconv_float
      (@service.OpenWeatherMapService_WeatherService GoRuntime.strconv_float
         GoRuntime.plain_url service_test.codec)
      (handler.New (service_test.NewService "secret" (Err "context deadline exceeded")) 10)
      http.NewRecorder (handler_test.NewRequest "GET" "40.7128" "-74.0060")
  with
  | Return st =>
      handler.w st =
        responded http.NewRecorder 503 (error_body "Unable to fetch weather data")
  | Panic _ => False
  end.
Proof. vm_compute. reflexivity. Qed.

(** An empty [weather] array: the panic of the client goes through the
    handler, and no response is written. *)
Example empty_weather_panics_in_handler :
  @handler.serve _ GoRuntime.strconv_float
    (@service.OpenWeatherMapService_WeatherService GoRuntime.strconv_float
       GoRuntime.plain_url service_test.codec)
    (handler.New
       (service_test.NewService "secret"
          (service_test.respond 200 service_test.body_empty_weather)) 10)
    http.NewRecorder (handler_test.NewRequest "GET" "40.7128" "-74.0060")
  = Panic "runtime error: index out of range [0] with length 0".
Proof. vm_compute. reflexivity. Qed.

(** The repository's handler tests. *)
Example TestWeatherHandler_Success :
  match
    @handler.serve _ GoRuntime.strconv_float handler_test.MockWeatherService_WeatherService
      (handler.New
         {| handler_test.shouldError := false;
            handler_test.returnData :=
              Some {| service.ObservationTime := ""; service.Country := "";
                      service.City := ""; service.Condition := "Clear";
                      service.TemperatureCategory := "hot" |} |} 10)
      http.NewRecorder (handler_test.NewRequest "GET" "40.7" "-74.0")
  with
  | Return st => http.Code (handler.w st) = 200
  | Panic _ => False
  end.
Proof. vm_compute. reflexivity. Qed.

Example TestWeatherHandler_ServiceError :
  match
    @handler.serve _ GoRuntime.strconv_float handler_test.MockWeatherService_WeatherService
      (handler.New {| handler_test.shouldError := true; handler_test.returnData := None |} 10)
      http.NewRecorder (handler_test.NewRequest "GET" "40.7" "-74.0")
  with
  | Return st => http.Code (handler.w st) = 503
  | Panic _ => False
  end.
Proof. vm_compute. reflexivity. Qed.

(** ** The Go runtime model on known values *)

Example ParseFloat_known_values :
  GoRuntime.ParseFloat "40.7128" = Ok 40.7128%float /\
  GoRuntime.ParseFloat "-74.0060" = Ok (-74.006)%float /\
  GoRuntime.ParseFloat "1e-320" = Ok 1e-320%float /\
  GoRuntime.ParseFloat "0x1p-2" = Ok 0.25%float /\
  GoRuntime.ParseFloat "1_000.5" = Ok 1000.5%float /\
  GoRuntime.ParseFloat "9007199254740993" = Ok 9007199254740992%float /\
  GoRuntime.ParseFloat "-Infinity" = Ok neg_infinity /\
  GoRuntime.ParseFloat "nan" = Ok nan /\
  GoRuntime.ParseFloat "1e309" = Err strconv.ErrRange /\
  GoRuntime.ParseFloat "+nan" = Err strconv.ErrSyntax /\
  GoRuntime.ParseFloat "1e" = Err strconv.ErrSyntax /\
  GoRuntime.ParseFloat "1__0" = Err strconv.ErrSyntax /\
  GoRuntime.ParseFloat " 1" = Err strconv.ErrSyntax.
Proof. repeat split; vm_compute; reflexivity. Qed.

Example FormatFloat_known_values :
  GoRuntime.FormatFloat_f_shortest 40.7128 = "40.7128" /\
  GoRuntime.FormatFloat_f_shortest (-74.0060) = "-74.006" /\
  GoRuntime.FormatFloat_f_shortest (0.1 + 0.2) = "0.30000000000000004" /\
  GoRuntime.FormatFloat_f_shortest 1e21 = "1000000000000000000000" /\
  GoRuntime.FormatFloat_f_shortest 1e23 = "100000000000000000000000" /\
  GoRuntime.FormatFloat_f_shortest 9007199254740993 = "9007199254740992" /\
  GoRuntime.FormatFloat_f_shortest 0.000001 = "0.000001" /\
  GoRuntime.FormatFloat_f_shortest 90 = "90" /\
  GoRuntime.FormatFloat_f_shortest (-0) = "-0" /\
  GoRuntime.FormatFloat_f_shortest nan = "NaN" /\
  GoRuntime.FormatFloat_f_shortest infinity = "+Inf".
Proof. repeat split; vm_compute; reflexivity. Qed.

Example Sprint_f_known_values :
  fmt.Sprint_f 4 91 = "91.0000" /\
  fmt.Sprint_f 4 (-74.006) = "-74.0060" /\
  fmt.Sprint_f 4 (-0.00001) = "-0.0000" /\
  fmt.Sprint_f 2 0.125 = "0.12" /\
  fmt.Sprint_f 0 2.5 = "2" /\
  fmt.Sprint_f 4 nan = "NaN" /\
  fmt.Sprint_f 4 infinity = "+Inf".
Proof. repeat split; vm_compute; reflexivity. Qed.

(** * Further properties of the code *)

(** ** The handler, case by case *)

(** X1.  A request with a method other than GET is answered with status 405
    and the JSON error "Method not allowed", whatever its parameters; the
    service is not called and only the entry line is logged. *)
Theorem non_GET_is_rejected_with_405
    {S} `{StrconvFloat} `{service.WeatherService S}
    (wh : handler.WeatherHandler S) (w0 : handler.ResponseWriter) (r : http.Request) :
  http.Method r <> "GET" ->
  http.wroteHeader w0 = false ->
  http.WriteFails w0 = false ->
  handler.serve wh w0 r =
    Return {| handler.w := responded w0 405 (error_body "Method not allowed");
              handler.svc := handler.weatherService wh;
              handler.logged :=
                [handler.SlogInfo "GetWeather"
                   [("method", http.Method r); ("path", http.Path r);
                    ("remote-address", http.RemoteAddr r)]] |}.
Proof.
  intros Hm Hw Hf. rewrite serve_unfold.
  destruct (String.eqb_spec (http.Method r) http.MethodGet) as [E | _];
    [contradiction |].
  cbn [negb].
  rewrite sendErrorResponse_fresh by (auto; unfold http.StatusMethodNotAllowed; lia).
  reflexivity.
Qed.

Lemma non_GET_is_rejected_with_405_witness :
  @handler.serve _ GoRuntime.strconv_float handler_test.RecordingService_WeatherService
    (handler.New
       {| handler_test.calls := [];
          handler_test.inner := {| handler_test.shouldError := false;
                                   handler_test.returnData := None |} |} 10)
    http.NewRecorder (handler_test.NewRequest "get" "40.7" "-74.0")
  = Return {| handler.w := responded http.NewRecorder 405 (error_body "Method not allowed");
              handler.svc :=
                {| handler_test.calls := [];
                   handler_test.inner := {| handler_test.shouldError := false;
                                            handler_test.returnData := None |} |};
              handler.logged :=
                [handler.SlogInfo "GetWeather"
                   [("method", "get"); ("path", "/weather");
                    ("remote-address", "192.0.2.1:1234")]] |}.
Proof.
  apply (@non_GET_is_rejected_with_405 _ GoRuntime.strconv_float
           handler_test.RecordingService_WeatherService
           (handler.New
              {| handler_test.calls := [];
                 handler_test.inner := {| handler_test.shouldError := false;
                                          handler_test.returnData := None |} |} 10)
           http.NewRecorder (handler_test.NewRequest "get" "40.7" "-74.0")).
  - discriminate.
  - reflexivity.
  - reflexivity.
Defined.

(** X2.  When the service returns data (or a nil pointer) to a valid GET
    request, the client gets status 200 and that value as the JSON body; the
    service was called with the request's context under the handler's
    timeout, and the success line with the coordinates goes to the log. *)
Theorem service_data_yields_200
    {S} `{StrconvFloat} `{service.WeatherService S}
    (wh : handler.WeatherHandler S) (w0 : handler.ResponseWriter)
    (r : http.Request) (lat lon : float) (svc' : S)
    (data : option service.WeatherData) :
  http.Method r = "GET" ->
  handler.parseCoordinates r = Ok (lat, lon) ->
  service.WeatherService_GetWeather (handler.weatherService wh)
    (http.WithTimeout (http.Ctx r) (handler.externalApiTimeout wh)) lat lon
    = Return (svc', Ok data) ->
  http.wroteHeader w0 = false ->
  http.WriteFails w0 = false ->
  handler.serve wh w0 r =
    Return {| handler.w :=
                responded w0 200 [http.JSONLine (handler.WeatherPayload data)];
              handler.svc := svc';
              handler.logged :=
                [handler.SlogInfo "GetWeather"
                   [("method", http.Method r); ("path", http.Path r);
                    ("remote-address", http.RemoteAddr r)];
                 handler.LogPrintf
                   ("Successfully served weather data for coordinates ("
                    +:+ fmt.Sprint_f 4 lat +:+ ", " +:+ fmt.Sprint_f 4 lon +:+ ")")] |}.
Proof.
  intros Hm Hp Hs Hw Hf.
  rewrite serve_unfold, Hm, Hp.
  change (negb (String.eqb "GET" http.MethodGet)) with false. cbv iota.
  unfold handler.bind at 1. unfold handler.call_GetWeather.
  cbn [handler.svc handler.w handler.logged]. rewrite Hs.
  unfold handler.bind.
  rewrite sendJSONResponse_fresh
    by (auto; try discriminate; unfold http.StatusOK; lia).
  reflexivity.
Qed.

Lemma service_data_yields_200_witness :
  @handler.serve _ GoRuntime.strconv_float handler_test.MockWeatherService_WeatherService
    (handler.New {| handler_test.shouldError := false; handler_test.returnData := None |} 10)
    http.NewRecorder (handler_test.NewRequest "GET" "90" "-180")
  = Return {| handler.w :=
                responded http.NewRecorder 200 [http.JSONLine (handler.WeatherPayload None)];
              handler.svc := {| handler_test.shouldError := false;
                                handler_test.returnData := None |};
              handler.logged :=
                [handler.SlogInfo "GetWeather"
                   [("method", "GET"); ("path", "/weather");
                    ("remote-address", "192.0.2.1:1234")];
                 handler.LogPrintf
                   ("Successfully served weather data for coordinates ("
                    +:+ fmt.Sprint_f 4 90 +:+ ", " +:+ fmt.Sprint_f 4 (-180) +:+ ")")] |}.
Proof.
  apply (@service_data_yields_200 _ GoRuntime.strconv_float
           handler_test.MockWeatherService_WeatherService
           (handler.New {| handler_test.shouldError := false;
                           handler_test.returnData := None |} 10)
           http.NewRecorder (handler_test.NewRequest "GET" "90" "-180")
           90 (-180) _ None).
  - reflexivity.
  - vm_compute. reflexivity.
  - reflexivity.
  - reflexivity.
  - reflexivity.
Defined.

(** X3.  The handler has no [recover]: a panic of the service on a valid GET
    request is the panic of the handler call, and no response is written. *)
Theorem service_panic_is_not_recovered
    {S} `{StrconvFloat} `{service.WeatherService S}
    (wh : handler.WeatherHandler S) (w0 : handler.ResponseWriter)
    (r : http.Request) (lat lon : float) (msg : string) :
  http.Method r = "GET" ->
  handler.parseCoordinates r = Ok (lat, lon) ->
  service.WeatherService_GetWeather (handler.weatherService wh)
    (http.WithTimeout (http.Ctx r) (handler.externalApiTimeout wh)) lat lon
    = Panic msg ->
  handler.serve wh w0 r = Panic msg.
Proof.
  intros Hm Hp Hs.
  rewrite serve_unfold, Hm, Hp.
  change (negb (String.eqb "GET" http.MethodGet)) with false. cbv iota.
  unfold handler.bind at 1. unfold handler.call_GetWeather.
  cbn [handler.svc handler.w handler.logged]. rewrite Hs. reflexivity.
Qed.

Lemma service_panic_is_not_recovered_witness :
  @handler.serve _ GoRuntime.strconv_float
    (@service.OpenWeatherMapService_WeatherService GoRuntime.strconv_float
       GoRuntime.plain_url service_test.codec)
    (handler.New
       (service_test.NewService "secret"
          (service_test.respond 200 service_test.body_empty_weather)) 10)
    http.NewRecorder (handler_test.NewRequest "GET" "40.7128" "-74.0060")
  = Panic "runtime error: index out of range [0] with length 0".
Proof.
  apply (@service_panic_is_not_recovered _ GoRuntime.strconv_float
           (@service.OpenWeatherMapService_WeatherService GoRuntime.strconv_float
              GoRuntime.plain_url service_test.codec)
           (handler.New
              (service_test.NewService "secret"
                 (service_test.respond 200 service_test.body_empty_weather)) 10)
           http.NewRecorder (handler_test.NewRequest "GET" "40.7128" "-74.0060")
           40.7128 (-74.006)).
  - reflexivity.
  - vm_compute. reflexivity.
  - vm_compute. reflexivity.
Defined.

(** A JSON response with a valid status on a writer that has sent nothing:
    the call returns and the status line went out with that status, whether
    or not the body could be written. *)
Lemma sendJSONResponse_sent {S} (st : handler.State S) (code : Z) (data : handler.Payload) :
  http.wroteHeader (handler.w st) = false ->
  100 <= code <= 999 ->
  exists st',
    handler.sendJSONResponse code data st = Return (tt, st') /\
    http.wroteHeader (handler.w st') = true /\
    http.Code (handler.w st') = code /\
    http.SentHeader (handler.w st') !! "Content-Type" = Some "application/json".
Proof.
  intros Hw Hc.
  destruct st as [[hd wh c sh b wf] sv lg]. cbn in Hw. subst wh.
  unfold handler.sendJSONResponse, handler.bind, handler.set_header,
    handler.write_header, handler.json_Encode, handler.on_writer, handler.ret,
    handler.log, handler.http_Error, http.Error, http.WriteHeader, http.Write,
    http.Set_Header, http.Del_Header.
  cbn -[insert delete]. rewrite (valid_code_check code Hc). cbn -[insert delete].
  destruct data, wf; cbn -[insert delete]; eexists; (split; [reflexivity |]);
    cbn -[insert delete]; rewrite lookup_insert_eq; auto.
Qed.

(** The four ways a handler call returns. *)
Lemma serve_paths {S} `{StrconvFloat} `{service.WeatherService S}
    (wh : handler.WeatherHandler S) (w0 : handler.ResponseWriter) (r : http.Request)
    (st : handler.State S) :
  http.wroteHeader w0 = false ->
  handler.serve wh w0 r = Return st ->
  (http.wroteHeader (handler.w st) = true /\
   http.SentHeader (handler.w st) !! "Content-Type" = Some "application/json") /\
  ((http.Method r <> "GET" /\ http.Code (handler.w st) = 405) \/
   (http.Method r = "GET" /\
    exists msg, handler.parseCoordinates r = Err msg /\ http.Code (handler.w st) = 400) \/
   (http.Method r = "GET" /\
    exists lat lon svc' err,
      handler.parseCoordinates r = Ok (lat, lon) /\
      service.WeatherService_GetWeather (handler.weatherService wh)
        (http.WithTimeout (http.Ctx r) (handler.externalApiTimeout wh)) lat lon
      = Return (svc', Err err) /\
      http.Code (handler.w st) = 503) \/
   (http.Method r = "GET" /\
    exists lat lon svc' data,
      handler.parseCoordinates r = Ok (lat, lon) /\
      service.WeatherService_GetWeather (handler.weatherService wh)
        (http.WithTimeout (http.Ctx r) (handler.externalApiTimeout wh)) lat lon
      = Return (svc', Ok data) /\
      http.Code (handler.w st) = 200)).
Proof.
  intros Hw. rewrite serve_unfold.
  set (st0 := {| handler.w := w0; handler.svc := handler.weatherService wh;
                 handler.logged := _ |}).
  destruct (String.eqb_spec (http.Method r) http.MethodGet) as [Hm | Hm]; cbn [negb].
  - destruct (handler.parseCoordinates r) as [[lat lon] | msg] eqn:Hp.
    + unfold handler.bind at 1, handler.call_GetWeather.
      destruct (service.WeatherService_GetWeather _ _ _ _) as [[svc' res] | m] eqn:Hcall;
        [| discriminate].
      destruct res as [data | err].
      * unfold handler.bind, handler.log.
        set (st1 := {| handler.w := handler.w st0; handler.svc := svc';
                       handler.logged := handler.logged st0 |}).
        destruct (sendJSONResponse_sent st1 200 (handler.WeatherPayload data) Hw ltac:(lia))
          as (st' & E & W & C & T).
        unfold http.StatusOK. rewrite E. cbn. intros [= <-]. cbn.
        split; [exact (conj W T) |]. right. right. right. split; [exact Hm |].
        exists lat, lon, svc', data. auto.
      * unfold handler.bind at 1, handler.log.
        set (st1 := {| handler.w := handler.w _; handler.svc := handler.svc _;
                       handler.logged := _ |}).
        unfold handler.sendErrorResponse.
        destruct (sendJSONResponse_sent st1 503
                    (handler.ErrorPayload {| handler.Error := "Unable to fetch weather data" |})
                    Hw ltac:(lia)) as (st' & E & W & C & T).
        unfold http.StatusServiceUnavailable. rewrite E. intros [= <-].
        split; [exact (conj W T) |]. right. right. left. split; [exact Hm |].
        exists lat, lon, svc', err. auto.
    + unfold handler.sendErrorResponse.
      destruct (sendJSONResponse_sent st0 400
                  (handler.ErrorPayload {| handler.Error := msg |}) Hw ltac:(lia))
        as (st' & E & W & C & T).
      unfold http.StatusBadRequest. rewrite E. intros [= <-].
      split; [exact (conj W T) |]. right. left. split; [exact Hm |]. exists msg. auto.
  - unfold handler.sendErrorResponse.
    destruct (sendJSONResponse_sent st0 405
                (handler.ErrorPayload {| handler.Error := "Method not allowed" |})
                Hw ltac:(lia)) as (st' & E & W & C & T).
    unfold http.StatusMethodNotAllowed. rewrite E. intros [= <-].
    split; [exact (conj W T) |]. left. auto.
Qed.

(** X4.  Once a handler call returns, the status line went out with the JSON
    content type, and the status tells the path the call took: 405 for a
    method other than GET, 400 for a validation failure, 503 for a service
    error and 200 for a service result. This holds on a broken connection
    and for a value that cannot be encoded as well, so the handler never
    delivers 500. *)
Theorem served_status_tells_the_path
    {S} `{StrconvFloat} `{service.WeatherService S}
    (wh : handler.WeatherHandler S) (w0 : handler.ResponseWriter) (r : http.Request)
    (st : handler.State S) :
  http.wroteHeader w0 = false ->
  handler.serve wh w0 r = Return st ->
  http.wroteHeader (handler.w st) = true /\
  http.SentHeader (handler.w st) !! "Content-Type" = Some "application/json" /\
  http.Code (handler.w st) <> 500 /\
  (http.Code (handler.w st) = 405 <-> http.Method r <> "GET") /\
  (http.Code (handler.w st) = 400 <->
   http.Method r = "GET" /\ exists msg, handler.parseCoordinates r = Err msg) /\
  (http.Code (handler.w st) = 503 <->
   http.Method r = "GET" /\
   exists lat lon svc' err,
     handler.parseCoordinates r = Ok (lat, lon) /\
     service.WeatherService_GetWeather (handler.weatherService wh)
       (http.WithTimeout (http.Ctx r) (handler.externalApiTimeout wh)) lat lon
     = Return (svc', Err err)) /\
  (http.Code (handler.w st) = 200 <->
   http.Method r = "GET" /\
   exists lat lon svc' data,
     handler.parseCoordinates r = Ok (lat, lon) /\
     service.WeatherService_GetWeather (handler.weatherService wh)
       (http.WithTimeout (http.Ctx r) (handler.externalApiTimeout wh)) lat lon
     = Return (svc', Ok data)).
Proof.
  intros Hw Hs.
  destruct (serve_paths wh w0 r st Hw Hs) as ((Hsent & Htype) & Hpath).
  split; [exact Hsent |]. split; [exact Htype |].
  destruct Hpath as [(Hm & Hc) | [(Hm & msg & Hp & Hc) |
                    [(Hm & lat & lon & svc' & err & Hp & Hcall & Hc) |
                     (Hm & lat & lon & svc' & data & Hp & Hcall & Hc)]]];
    rewrite Hc; (split; [lia |]);
    repeat split; try lia; try tauto; try congruence; eauto 10;
    try (intros (Hm' & msg' & Hp'); congruence);
    try (intros (Hm' & lat' & lon' & svc'' & x & Hp' & Hcall'); congruence);
    try (intros (Hm' & lat' & lon' & svc'' & x & Hp' & Hcall');
         rewrite Hp in Hp'; injection Hp' as <- <-; congruence).
Qed.

Lemma served_status_tells_the_path_witness :
  match
    @handler.serve _ GoRuntime.strconv_float handler_test.MockWeatherService_WeatherService
      (handler.New {| handler_test.shouldError := false;
                      handler_test.returnData := None |} 10)
      {| http.Header := ∅; http.wroteHeader := false; http.Code := 0;
         http.SentHeader := ∅; http.Body := []; http.WriteFails := true |}
      (handler_test.NewRequest "GET" "abc" "0")
  with
  | Return st => http.Code (handler.w st) = 400
  | Panic _ => False
  end.
Proof.
  destruct (@handler.serve _ GoRuntime.strconv_float
              handler_test.MockWeatherService_WeatherService _ _ _) as [st | m] eqn:Hs.
  - destruct (@served_status_tells_the_path _ GoRuntime.strconv_float
                handler_test.MockWeatherService_WeatherService
                (handler.New {| handler_test.shouldError := false;
                                handler_test.returnData := None |} 10)
                {| http.Header := ∅; http.wroteHeader := false; http.Code := 0;
                   http.SentHeader := ∅; http.Body := []; http.WriteFails := true |}
                (handler_test.NewRequest "GET" "abc" "0") st eq_refl Hs)
      as (_ & _ & _ & _ & H400 & _).
    apply H400. split; [reflexivity |]. eexists. vm_compute. reflexivity.
  - vm_compute in Hs. discriminate.
Defined.

(** ** The health endpoint *)

(** X5.  [HealthCheck] never panics. On a connection that has sent nothing
    it answers GET with status 200, the JSON content type and the two-entry
    object [status]/[timestamp], and any other method with status 405 and
    the plain-text line of [http.Error], not with the JSON error object of
    the weather endpoint. *)
Theorem HealthCheck_responses (timestamp : string) (w0 : handler.HealthWriter)
    (r : http.Request) :
  exists w',
    handler.HealthCheck timestamp w0 r = Return w' /\
    (http.wroteHeader w0 = false ->
     http.wroteHeader w' = true /\
     (http.Method r = "GET" ->
      http.Code w' = 200 /\
      http.SentHeader w' !! "Content-Type" = Some "application/json" /\
      (http.WriteFails w0 = false ->
       exists response : gmap string string,
         http.Body w' = (http.Body w0 ++ [http.JSONLine response])%list /\
         response !! "status" = Some "ok" /\
         response !! "timestamp" = Some timestamp /\
         forall key, key <> "status" -> key <> "timestamp" -> response !! key = None)) /\
     (http.Method r <> "GET" ->
      http.Code w' = 405 /\
      http.SentHeader w' !! "Content-Type" = Some "text/plain; charset=utf-8" /\
      http.SentHeader w' !! "X-Content-Type-Options" = Some "nosniff" /\
      (http.WriteFails w0 = false ->
       http.Body w' = (http.Body w0 ++ [http.TextLine "Method not allowed"])%list))).
Proof.
  destruct w0 as [hd wh c sh b wf].
  unfold handler.HealthCheck, http.Error, http.WriteHeader, http.Write,
    http.Set_Header, http.Del_Header, http.StatusMethodNotAllowed.
  cbn -[insert delete String.eqb].
  destruct (String.eqb_spec (http.Method r) http.MethodGet) as [Hm | Hm];
    cbn -[insert delete].
  - eexists. split; [reflexivity |]. intros ->. cbn -[insert delete].
    split; [destruct wf; reflexivity |].
    split; [| intros Hn; contradiction].
    intros _. split; [destruct wf; reflexivity |].
    split; [destruct wf; cbn -[insert delete]; apply lookup_insert_eq |].
    intros ->. cbn -[insert delete].
    eexists. split; [reflexivity |].
    split; [rewrite lookup_insert_ne by discriminate; apply lookup_insert_eq |].
    split; [apply lookup_insert_eq |].
    intros key H1 H2. rewrite !lookup_insert_ne by congruence. apply lookup_empty.
  - destruct wh; cbn -[insert delete].
    + eexists. split; [reflexivity |]. discriminate.
    + eexists. split; [reflexivity |]. intros _.
      split; [destruct wf; reflexivity |].
      split; [intros Hg; contradiction |].
      intros _. split; [destruct wf; reflexivity |].
      split; [destruct wf; cbn -[insert delete];
              rewrite lookup_insert_ne by discriminate; apply lookup_insert_eq |].
      split; [destruct wf; cbn -[insert delete]; apply lookup_insert_eq |].
      intros ->. reflexivity.
Qed.

Lemma HealthCheck_responses_witness :
  exists w',
    handler.HealthCheck "2024-06-05T22:23:23Z" http.NewRecorder
      (handler_test.NewRequest "DELETE" "" "") = Return w' /\
    http.Code w' = 405 /\
    http.Body w' = [http.TextLine "Method not allowed"].
Proof.
  destruct (HealthCheck_responses "2024-06-05T22:23:23Z" http.NewRecorder
              (handler_test.NewRequest "DELETE" "" "")) as (w' & E & Hfresh).
  exists w'. split; [exact E |].
  destruct (Hfresh eq_refl) as (_ & _ & Hother).
  destruct Hother as (C & _ & _ & B); [discriminate |].
  split; [exact C | exact (B eq_refl)].
Defined.

(** ** Accepted coordinates *)

Lemma SFltb_false_leb_above (x : spec_float) (s : bool) (m : positive) (e : Z) :
  x <> S754_nan ->
  SFltb (S754_finite s m e) x = false -> SFleb x (S754_finite s m e) = true.
Proof.
  intros Hx. destruct (SFcompare_finite_some x s m e Hx) as [o Ho].
  unfold SFltb, SFleb. rewrite (SFcompare_antisym x), Ho.
  destruct o; cbn; congruence.
Qed.

Lemma is_nan_false (x : float) : is_nan x = false -> Prim2SF x <> S754_nan.
Proof.
  unfold is_nan. rewrite FloatAxioms.eqb_spec. intros H E. rewrite E in H.
  discriminate.
Qed.

(** Inside a symmetric finite bound: in range, and not an infinity. *)
Lemma within_bound (x : float) (m : positive) (e : Z) :
  SFltb (Prim2SF x) (S754_finite true m e) = false ->
  SFltb (S754_finite false m e) (Prim2SF x) = false ->
  (is_nan x = true \/
   SFleb (S754_finite true m e) (Prim2SF x) = true /\
   SFleb (Prim2SF x) (S754_finite false m e) = true) /\
  is_infinity x = false.
Proof.
  intros Hlo Hhi. split.
  - destruct (is_nan x) eqn:Hn; [now left | right].
    apply is_nan_false in Hn.
    split; [apply SFltb_false_leb | apply SFltb_false_leb_above]; assumption.
  - unfold is_infinity. rewrite FloatAxioms.eqb_spec, abs_spec.
    change (Prim2SF infinity) with (S754_infinity false).
    destruct (Prim2SF x) as [s | s | | s m' e']; try reflexivity.
    destruct s; [discriminate Hlo | discriminate Hhi].
Qed.

(** X6.  Every pair [parseCoordinates] accepts came from two non-empty
    parameters; each coordinate is within its range or is NaN, and neither
    is an infinity. *)
Theorem accepted_coordinates_are_in_range_or_NaN `{StrconvFloat}
    (r : http.Request) (lat lon : float) :
  handler.parseCoordinates r = Ok (lat, lon) ->
  url.Get (http.Query r) "lat" <> "" /\
  url.Get (http.Query r) "lon" <> "" /\
  ParseFloat64 (url.Get (http.Query r) "lat") = Ok lat /\
  ParseFloat64 (url.Get (http.Query r) "lon") = Ok lon /\
  (is_nan lat = true \/ ((-90 <=? lat) && (lat <=? 90))%float = true) /\
  (is_nan lon = true \/ ((-180 <=? lon) && (lon <=? 180))%float = true) /\
  is_infinity lat = false /\ is_infinity lon = false.
Proof.
  unfold handler.parseCoordinates.
  destruct (String.eqb_spec (url.Get (http.Query r) "lat") "") as [E1 | N1];
    [discriminate |].
  destruct (String.eqb_spec (url.Get (http.Query r) "lon") "") as [E2 | N2];
    [discriminate |].
  cbn [orb].
  destruct (ParseFloat64 (url.Get (http.Query r) "lat")) as [lat' | e1]; [| discriminate].
  destruct (ParseFloat64 (url.Get (http.Query r) "lon")) as [lon' | e2]; [| discriminate].
  destruct ((lat' <? -90)%float || (90 <? lat')%float) eqn:R1; [discriminate |].
  destruct ((lon' <? -180)%float || (180 <? lon')%float) eqn:R2; [discriminate |].
  intros [= -> ->].
  apply orb_false_iff in R1, R2. destruct R1 as [L1 L2], R2 as [L3 L4].
  rewrite ltb_spec in L1, L2, L3, L4.
  change (Prim2SF (-90)%float) with (S754_finite true 6333186975989760 (-46)) in L1.
  change (Prim2SF 90%float) with (S754_finite false 6333186975989760 (-46)) in L2.
  change (Prim2SF (-180)%float) with (S754_finite true 6333186975989760 (-45)) in L3.
  change (Prim2SF 180%float) with (S754_finite false 6333186975989760 (-45)) in L4.
  destruct (within_bound lat _ _ L1 L2) as [A1 I1].
  destruct (within_bound lon _ _ L3 L4) as [A2 I2].
  repeat (split; [solve [auto] |]).
  split; [| split; [| split; assumption]].
  - destruct A1 as [A1 | [A1 B1]]; [now left | right].
    rewrite !leb_spec.
    change (Prim2SF (-90)%float) with (S754_finite true 6333186975989760 (-46)).
    change (Prim2SF 90%float) with (S754_finite false 6333186975989760 (-46)).
    rewrite A1, B1. reflexivity.
  - destruct A2 as [A2 | [A2 B2]]; [now left | right].
    rewrite !leb_spec.
    change (Prim2SF (-180)%float) with (S754_finite true 6333186975989760 (-45)).
    change (Prim2SF 180%float) with (S754_finite false 6333186975989760 (-45)).
    rewrite A2, B2. reflexivity.
Qed.

Lemma accepted_coordinates_are_in_range_or_NaN_witness :
  ((-90 <=? 90) && (90 <=? 90))%float = true /\
  ((-180 <=? -180) && (-180 <=? 180))%float = true /\
  is_nan nan = true.
Proof.
  destruct (@accepted_coordinates_are_in_range_or_NaN GoRuntime.strconv_float
              (handler_test.NewRequest "GET" "90" "-180") 90 (-180)
              ltac:(vm_compute; reflexivity))
    as (_ & _ & _ & _ & [A | A] & [B | B] & _).
  - discriminate A.
  - discriminate A.
  - discriminate B.
  - split; [exact A |]. split; [exact B | reflexivity].
Defined.

(** ** The weather client, read backwards *)

(** The stages of [GetWeather] up to the decoded body. *)
Lemma GetWeather_stages `{StrconvFloat} `{url.Lib} `{service.Codec}
    (srv : service.OpenWeatherMapService) (ctx : http.Context) (lat lon : float)
    (out : Outcome (Result service.WeatherData)) :
  service.GetWeather srv ctx lat lon = out ->
  (exists cause,
     service.buildAPIURL srv lat lon = Err cause /\
     out = Return (Err ("failed to build API URL: " +:+ cause))) \/
  (exists apiURL cause,
     service.buildAPIURL srv lat lon = Ok apiURL /\
     http.NewRequestWithContext ctx "GET" apiURL = Err cause /\
     out = Return (Err ("failed to create HTTP request: " +:+ cause))) \/
  (exists apiURL req cause,
     service.buildAPIURL srv lat lon = Ok apiURL /\
     http.NewRequestWithContext ctx "GET" apiURL = Ok req /\
     http.Do (service.httpClient srv)
       (http.Header_Set (http.Header_Set req "Accept" "application/json")
          "User-Agent" "Weather-API-Go/1.0") = Err cause /\
     out = Return (Err ("failed to make HTTP request: " +:+ cause))) \/
  (exists apiURL req resp cause,
     service.buildAPIURL srv lat lon = Ok apiURL /\
     http.NewRequestWithContext ctx "GET" apiURL = Ok req /\
     http.Do (service.httpClient srv)
       (http.Header_Set (http.Header_Set req "Accept" "application/json")
          "User-Agent" "Weather-API-Go/1.0") = Ok resp /\
     http.ReadAll_Body resp = Err cause /\
     out = Return (Err ("failed to read response body: " +:+ cause))) \/
  (exists resp body,
     upstream_answers srv ctx lat lon resp body /\
     out =
     match service.json_Unmarshal body with
     | Err err => Return (Err ("failed to parse JSON response: " +:+ err))
     | Ok mapResponse =>
         if negb (service.HttpCode mapResponse =? 200) then
           Return (Err ("OpenWeatherMap API error (code "
                        +:+ fmt.Sprint_d (service.HttpCode mapResponse)
                        +:+ "): " +:+ service.Message mapResponse))
         else
           match service.Weather mapResponse with
           | [] => Panic "runtime error: index out of range [0] with length 0"
           | first :: _ =>
               Return (Ok {| service.ObservationTime :=
                               service.time_Unix_Format (service.UnixSeconds mapResponse);
                             service.Country := service.Location_Country mapResponse;
                             service.City := service.Name mapResponse;
                             service.Condition := service.Main first;
                             service.TemperatureCategory :=
                               service.categorizeTemperature
                                 (service.toFahrenheit (service.Main_Temp mapResponse)) |})
           end
     end).
Proof.
  intros <-. unfold service.GetWeather.
  destruct (service.buildAPIURL srv lat lon) as [apiURL | e1] eqn:E1.
  2: { left. eauto. }
  destruct (http.NewRequestWithContext ctx "GET" apiURL) as [req | e2] eqn:E2.
  2: { right. left. eauto 6. }
  destruct (http.Do _ _) as [resp | e3] eqn:E3.
  2: { right. right. left. eauto 8. }
  destruct (http.ReadAll_Body resp) as [body | e4] eqn:E4.
  2: { right. right. right. left. exists apiURL, req, resp, e4. auto. }
  right. right. right. right. exists resp, body. split.
  - exists apiURL, req. auto.
  - reflexivity.
Qed.

(** X7.  Data is returned only after the upstream answered with a body that
    decodes, carries [cod] 200 and has a weather entry; the condition is
    that of the first entry, and the other fields are taken from the decoded
    body, whatever the HTTP status of the response. *)
Theorem GetWeather_data_comes_from_upstream `{StrconvFloat} `{url.Lib} `{service.Codec}
    (srv : service.OpenWeatherMapService) (ctx : http.Context) (lat lon : float)
    (data : service.WeatherData) :
  service.GetWeather srv ctx lat lon = Return (Ok data) ->
  exists resp body mapResponse first rest,
    upstream_answers srv ctx lat lon resp body /\
    service.json_Unmarshal body = Ok mapResponse /\
    service.HttpCode mapResponse = 200 /\
    service.Weather mapResponse = first :: rest /\
    data = {| service.ObservationTime :=
                service.time_Unix_Format (service.UnixSeconds mapResponse);
              service.Country := service.Location_Country mapResponse;
              service.City := service.Name mapResponse;
              service.Condition := service.Main first;
              service.TemperatureCategory :=
                service.categorizeTemperature
                  (service.toFahrenheit (service.Main_Temp mapResponse)) |}.
Proof.
  intros Hget.
  destruct (GetWeather_stages srv ctx lat lon _ Hget)
    as [(c & _ & E) | [(u & c & _ & _ & E) | [(u & q & c & _ & _ & _ & E) |
       [(u & q & p & c & _ & _ & _ & _ & E) | (resp & body & Hup & E)]]]];
    try discriminate E.
  destruct (service.json_Unmarshal body) as [mapResponse | e] eqn:Hdec;
    [| discriminate E].
  destruct (Z.eqb_spec (service.HttpCode mapResponse) 200) as [Hcod | Hcod];
    cbn [negb] in E; [| discriminate E].
  destruct (service.Weather mapResponse) as [| first rest] eqn:Hw; [discriminate E |].
  injection E as ->.
  exists resp, body, mapResponse, first, rest. auto.
Qed.

Lemma GetWeather_data_comes_from_upstream_witness :
  exists resp body mapResponse first rest,
    @upstream_answers GoRuntime.strconv_float GoRuntime.plain_url
      (service_test.NewService "secret"
         (service_test.respond 404 service_test.body_new_york))
      [10] 40.7128 (-74.006) resp body /\
    @service.json_Unmarshal service_test.codec body = Ok mapResponse /\
    service.HttpCode mapResponse = 200 /\
    service.Weather mapResponse = first :: rest /\
    {| service.ObservationTime := "2024-06-05 22:23:23 UTC";
       service.Country := "US"; service.City := "New York";
       service.Condition := "Clear"; service.TemperatureCategory := "hot" |}
    = {| service.ObservationTime :=
           @service.time_Unix_Format service_test.codec (service.UnixSeconds mapResponse);
         service.Country := service.Location_Country mapResponse;
         service.City := service.Name mapResponse;
         service.Condition := service.Main first;
         service.TemperatureCategory :=
           service.categorizeTemperature
             (service.toFahrenheit (service.Main_Temp mapResponse)) |}.
Proof.
  apply (@GetWeather_data_comes_from_upstream GoRuntime.strconv_float GoRuntime.plain_url
           service_test.codec
           (service_test.NewService "secret"
              (service_test.respond 404 service_test.body_new_york))
           [10] 40.7128 (-74.006)).
  vm_compute. reflexivity.
Defined.

(** X8.  [GetWeather] panics in one situation only: the upstream answered
    with a body that decodes, carries [cod] 200 and has no weather entry. *)
Theorem GetWeather_panics_only_on_empty_weather `{StrconvFloat} `{url.Lib} `{service.Codec}
    (srv : service.OpenWeatherMapService) (ctx : http.Context) (lat lon : float)
    (msg : string) :
  service.GetWeather srv ctx lat lon = Panic msg ->
  msg = "runtime error: index out of range [0] with length 0" /\
  exists resp body mapResponse,
    upstream_answers srv ctx lat lon resp body /\
    service.json_Unmarshal body = Ok mapResponse /\
    service.HttpCode mapResponse = 200 /\
    service.Weather mapResponse = [].
Proof.
  intros Hget.
  destruct (GetWeather_stages srv ctx lat lon _ Hget)
    as [(c & _ & E) | [(u & c & _ & _ & E) | [(u & q & c & _ & _ & _ & E) |
       [(u & q & p & c & _ & _ & _ & _ & E) | (resp & body & Hup & E)]]]];
    try discriminate E.
  destruct (service.json_Unmarshal body) as [mapResponse | e] eqn:Hdec;
    [| discriminate E].
  destruct (Z.eqb_spec (service.HttpCode mapResponse) 200) as [Hcod | Hcod];
    cbn [negb] in E; [| discriminate E].
  destruct (service.Weather mapResponse) as [| first rest] eqn:Hw; [| discriminate E].
  injection E as ->.
  split; [reflexivity |]. exists resp, body, mapResponse. auto.
Qed.

Lemma GetWeather_panics_only_on_empty_weather_witness :
  "runtime error: index out of range [0] with length 0"
  = "runtime error: index out of range [0] with length 0" /\
  exists resp body mapResponse,
    @upstream_answers GoRuntime.strconv_float GoRuntime.plain_url
      (service_test.NewService "secret"
         (service_test.respond 200 service_test.body_empty_weather))
      [10] 40.7128 (-74.006) resp body /\
    @service.json_Unmarshal service_test.codec body = Ok mapResponse /\
    service.HttpCode mapResponse = 200 /\
    service.Weather mapResponse = [].
Proof.
  apply (@GetWeather_panics_only_on_empty_weather GoRuntime.strconv_float
           GoRuntime.plain_url service_test.codec
           (service_test.NewService "secret"
              (service_test.respond 200 service_test.body_empty_weather))
           [10] 40.7128 (-74.006)).
  vm_compute. reflexivity.
Defined.

(** X9.  Every error [GetWeather] returns names the stage that failed and
    carries its cause: building the URL, creating the request, the exchange,
    reading the body, decoding it, or a [cod] other than 200. *)
Theorem GetWeather_errors_name_their_stage `{StrconvFloat} `{url.Lib} `{service.Codec}
    (srv : service.OpenWeatherMapService) (ctx : http.Context) (lat lon : float)
    (err : error) :
  service.GetWeather srv ctx lat lon = Return (Err err) ->
  (exists cause,
     url.Parse (service.baseURL srv +:+ "/weather") = Err cause /\
     err = "failed to build API URL: " +:+ cause) \/
  (exists apiURL cause,
     service.buildAPIURL srv lat lon = Ok apiURL /\
     url.Parse apiURL = Err cause /\
     err = "failed to create HTTP request: " +:+ cause) \/
  (exists apiURL req cause,
     service.buildAPIURL srv lat lon = Ok apiURL /\
     http.NewRequestWithContext ctx "GET" apiURL = Ok req /\
     http.Do (service.httpClient srv)
       (http.Header_Set (http.Header_Set req "Accept" "application/json")
          "User-Agent" "Weather-API-Go/1.0") = Err cause /\
     err = "failed to make HTTP request: " +:+ cause) \/
  (exists apiURL req resp cause,
     service.buildAPIURL srv lat lon = Ok apiURL /\
     http.NewRequestWithContext ctx "GET" apiURL = Ok req /\
     http.Do (service.httpClient srv)
       (http.Header_Set (http.Header_Set req "Accept" "application/json")
          "User-Agent" "Weather-API-Go/1.0") = Ok resp /\
     http.ReadAll_Body resp = Err cause /\
     err = "failed to read response body: " +:+ cause) \/
  (exists resp body cause,
     upstream_answers srv ctx lat lon resp body /\
     service.json_Unmarshal body = Err cause /\
     err = "failed to parse JSON response: " +:+ cause) \/
  (exists resp body mapResponse,
     upstream_answers srv ctx lat lon resp body /\
     service.json_Unmarshal body = Ok mapResponse /\
     service.HttpCode mapResponse <> 200 /\
     err = "OpenWeatherMap API error (code " +:+ fmt.Sprint_d (service.HttpCode mapResponse)
           +:+ "): " +:+ service.Message mapResponse).
Proof.
  intros Hget.
  destruct (GetWeather_stages srv ctx lat lon _ Hget)
    as [(c & B & E) | [(u & c & B & N & E) | [(u & q & c & B & N & D & E) |
       [(u & q & p & c & B & N & D & R & E) | (resp & body & Hup & E)]]]].
  - injection E as ->. left. exists c. split; [| reflexivity].
    rewrite buildAPIURL_query in B.
    destruct (url.Parse _) as [b | e]; [discriminate | congruence].
  - injection E as ->. right. left. exists u, c. split; [exact B |].
    split; [| reflexivity].
    unfold http.NewRequestWithContext in N.
    destruct (url.Parse u) as [b | e]; [discriminate | congruence].
  - injection E as ->. right. right. left. exists u, q, c. auto.
  - injection E as ->. right. right. right. left. exists u, q, p, c. auto.
  - destruct (service.json_Unmarshal body) as [mapResponse | e] eqn:Hdec.
    + destruct (Z.eqb_spec (service.HttpCode mapResponse) 200) as [Hcod | Hcod];
        cbn [negb] in E.
      * destruct (service.Weather mapResponse); discriminate E.
      * injection E as ->. do 5 right. exists resp, body, mapResponse. auto.
    + injection E as ->. do 4 right. left. exists resp, body, e. auto.
Qed.

Lemma GetWeather_errors_name_their_stage_witness :
  @service.GetWeather GoRuntime.strconv_float GoRuntime.plain_url service_test.codec
    (service_test.NewService "secret" (Err "context deadline exceeded"))
    [10] 40.7128 (-74.006)
  = Return (Err "failed to make HTTP request: context deadline exceeded") /\
  exists apiURL req cause,
    @service.buildAPIURL GoRuntime.strconv_float GoRuntime.plain_url
      (service_test.NewService "secret" (Err "context deadline exceeded"))
      40.7128 (-74.006) = Ok apiURL /\
    @http.NewRequestWithContext GoRuntime.plain_url [10] "GET" apiURL = Ok req /\
    http.Do (service.httpClient (service_test.NewService "secret"
                                   (Err "context deadline exceeded")))
       (http.Header_Set (http.Header_Set req "Accept" "application/json")
          "User-Agent" "Weather-API-Go/1.0") = Err cause /\
    "failed to make HTTP request: context deadline exceeded"
    = "failed to make HTTP request: " +:+ cause.
Proof.
  assert (E : @service.GetWeather GoRuntime.strconv_float GoRuntime.plain_url
                service_test.codec
                (service_test.NewService "secret" (Err "context deadline exceeded"))
                [10] 40.7128 (-74.006)
              = Return (Err "failed to make HTTP request: context deadline exceeded"))
    by (vm_compute; reflexivity).
  split; [exact E |].
  destruct (@GetWeather_errors_name_their_stage GoRuntime.strconv_float
              GoRuntime.plain_url service_test.codec _ _ _ _ _ E)
    as [(c & P & _) | [(u & c & B & P & _) | [Hdo |
       [(u & q & p & c & B & N & D & R & _) | [(p & b & c & U & _ & X) |
        (p & b & m & U & _ & _ & X)]]]]].
  - vm_compute in P. discriminate P.
  - vm_compute in B. injection B as <-. vm_compute in P. discriminate P.
  - exact Hdo.
  - vm_compute in D. discriminate D.
  - discriminate X.
  - discriminate X.
Defined.

(** ** The query sent upstream *)

Lemma count_byte_app (c : ascii) (s1 s2 : string) :
  count_byte c (s1 +:+ s2) = (count_byte c s1 + count_byte c s2)%nat.
Proof.
  induction s1 as [| a s1 IH]; [reflexivity |].
  change (String a s1 +:+ s2) with (String a (s1 +:+ s2)).
  cbn [count_byte]. rewrite IH. lia.
Qed.

Lemma upperhex_no_separator (c : ascii) (k : Z) :
  c = "&"%char \/ c = "="%char -> 0 <= k < 16 -> Ascii.eqb (url.upperhex k) c = false.
Proof.
  intros Hc Hk.
  assert (Hcases : k = 0 \/ k = 1 \/ k = 2 \/ k = 3 \/ k = 4 \/ k = 5 \/ k = 6 \/ k = 7 \/
                   k = 8 \/ k = 9 \/ k = 10 \/ k = 11 \/ k = 12 \/ k = 13 \/ k = 14 \/
                   k = 15) by lia.
  destruct Hc as [-> | ->];
    repeat (destruct Hcases as [-> | Hcases]; [reflexivity |]); subst k; reflexivity.
Qed.

(** An escaped string contains neither [&] nor [=]. *)
Lemma QueryEscape_no_separator (c : ascii) (s : string) :
  c = "&"%char \/ c = "="%char -> count_byte c (url.QueryEscape s) = 0%nat.
Proof.
  intros Hc. induction s as [| a s IH]; [reflexivity |].
  cbn [url.QueryEscape]. cbv zeta.
  pose proof (N_ascii_bounded a) as Hb.
  destruct (url.is_unreserved a) eqn:Hu.
  - cbn [count_byte]. rewrite IH.
    destruct (Ascii.eqb_spec a c) as [-> | _]; [| reflexivity].
    destruct Hc as [-> | ->]; discriminate Hu.
  - destruct (Z.of_N (N_of_ascii a) =? 32).
    + cbn [count_byte]. rewrite IH. destruct Hc as [-> | ->]; reflexivity.
    + cbn [count_byte]. rewrite IH.
      assert (H1 : 0 <= Z.of_N (N_of_ascii a) / 16 < 16)
        by (split; [apply Z.div_pos; lia | apply Z.div_lt_upper_bound; lia]).
      assert (H2 : 0 <= Z.of_N (N_of_ascii a) mod 16 < 16)
        by (apply Z.mod_pos_bound; lia).
      rewrite (upperhex_no_separator c _ Hc H1), (upperhex_no_separator c _ Hc H2).
      destruct Hc as [-> | ->]; reflexivity.
Qed.

(** X10.  Whatever the API key holds and however the coordinates are
    printed, the query [buildAPIURL] sets has exactly three [key=value]
    pairs: a key with [&] or [=] in it cannot add or change a parameter. *)
Theorem api_query_has_three_parameters (F : StrconvFloat) (L : url.Lib)
    (srv : service.OpenWeatherMapService) (lat lon : float) :
  match url.Parse (service.baseURL srv +:+ "/weather") with
  | Err err => service.buildAPIURL srv lat lon = Err err
  | Ok u =>
      exists query,
        service.buildAPIURL srv lat lon = Ok (url.String_ (url.with_RawQuery u query)) /\
        count_byte "&" query = 2%nat /\
        count_byte "=" query = 3%nat
  end.
Proof.
  rewrite buildAPIURL_query.
  destruct (url.Parse _) as [u | e]; [| reflexivity].
  exists (api_query srv lat lon). split; [reflexivity |].
  unfold api_query.
  split; rewrite !count_byte_app, !QueryEscape_no_separator by auto; reflexivity.
Qed.

(** ** The handler over the OpenWeatherMap client *)

(** X11.  End to end, the good case: the upstream answers with a body that
    decodes, carries [cod] 200 and has a weather entry; the client of the
    server gets status 200 and the weather data built from that body. *)
Theorem upstream_weather_reaches_client `{StrconvFloat} `{url.Lib} `{service.Codec}
    (srv : service.OpenWeatherMapService) (timeout : Z)
    (w0 : handler.ResponseWriter) (r : http.Request) (lat lon : float)
    (resp : http.Response) (body : string)
    (mapResponse : service.OpenWeatherMapResponse)
    (first : service.WeatherEntry) (rest : list service.WeatherEntry) :
  http.Method r = "GET" ->
  handler.parseCoordinates r = Ok (lat, lon) ->
  upstream_answers srv (http.WithTimeout (http.Ctx r) timeout) lat lon resp body ->
  service.json_Unmarshal body = Ok mapResponse ->
  service.HttpCode mapResponse = 200 ->
  service.Weather mapResponse = first :: rest ->
  http.wroteHeader w0 = false ->
  http.WriteFails w0 = false ->
  handler.serve (handler.New srv timeout) w0 r =
    Return
      {| handler.w :=
           responded w0 200
             [http.JSONLine
                (handler.WeatherPayload
                   (Some {| service.ObservationTime :=
                              service.time_Unix_Format (service.UnixSeconds mapResponse);
                            service.Country := service.Location_Country mapResponse;
                            service.City := service.Name mapResponse;
                            service.Condition := service.Main first;
                            service.TemperatureCategory :=
                              service.categorizeTemperature
                                (service.toFahrenheit (service.Main_Temp mapResponse)) |}))];
         handler.svc := srv;
         handler.logged :=
           [handler.SlogInfo "GetWeather"
              [("method", http.Method r); ("path", http.Path r);
               ("remote-address", http.RemoteAddr r)];
            handler.LogPrintf
              ("Successfully served weather data for coordinates ("
               +:+ fmt.Sprint_f 4 lat +:+ ", " +:+ fmt.Sprint_f 4 lon +:+ ")")] |}.
Proof.
  intros Hm Hp Hup Hdec Hcod Hwe Hw Hf.
  rewrite serve_unfold, Hm, Hp.
  change (negb (String.eqb "GET" http.MethodGet)) with false. cbv iota.
  unfold handler.bind at 1. unfold handler.call_GetWeather.
  cbn [handler.svc handler.w handler.logged handler.New handler.weatherService
       handler.externalApiTimeout service.WeatherService_GetWeather
       service.OpenWeatherMapService_WeatherService].
  rewrite (GetWeather_after_body srv _ lat lon resp body Hup), Hdec, Hcod, Hwe.
  cbn [Z.eqb Pos.eqb negb].
  unfold handler.bind.
  rewrite sendJSONResponse_fresh
    by (auto; try discriminate; unfold http.StatusOK; lia).
  reflexivity.
Qed.

Lemma upstream_weather_reaches_client_witness :
  @handler.serve _ GoRuntime.strconv_float
    (@service.OpenWeatherMapService_WeatherService GoRuntime.strconv_float
       GoRuntime.plain_url service_test.codec)
    (handler.New
       (service_test.NewService "secret"
          (service_test.respond 200 service_test.body_new_york)) 10)
    http.NewRecorder (handler_test.NewRequest "GET" "40.7128" "-74.0060")
  = Return
      {| handler.w :=
           responded http.NewRecorder 200
             [http.JSONLine
                (handler.WeatherPayload
                   (Some {| service.ObservationTime :=
                              @service.time_Unix_Format service_test.codec 1717626203;
                            service.Country := "US"; service.City := "New York";
                            service.Condition := "Clear";
                            service.TemperatureCategory :=
                              service.categorizeTemperature
                                (service.toFahrenheit 293.15) |}))];
         handler.svc :=
           service_test.NewService "secret"
             (service_test.respond 200 service_test.body_new_york);
         handler.logged :=
           [handler.SlogInfo "GetWeather"
              [("method", "GET"); ("path", "/weather");
               ("remote-address", "192.0.2.1:1234")];
            handler.LogPrintf
              ("Successfully served weather data for coordinates ("
               +:+ fmt.Sprint_f 4 40.7128 +:+ ", " +:+ fmt.Sprint_f 4 (-74.006) +:+ ")")] |}.
Proof.
  apply (@upstream_weather_reaches_client GoRuntime.strconv_float GoRuntime.plain_url
           service_test.codec
           (service_test.NewService "secret"
              (service_test.respond 200 service_test.body_new_york)) 10
           http.NewRecorder (handler_test.NewRequest "GET" "40.7128" "-74.0060")
           40.7128 (-74.006)
           {| http.StatusCode := 200; http.ReadAll_Body := Ok service_test.body_new_york |}
           service_test.body_new_york service_test.decoded_new_york
           {| service.Main := "Clear" |} []).
  - reflexivity.
  - vm_compute. reflexivity.
  - exists "https://api.openweathermap.org/data/2.5/weather?appid=secret&lat=40.7128&lon=-74.006".
    eexists.
    split; [vm_compute; reflexivity |].
    split; [vm_compute; reflexivity |].
    split; reflexivity.
  - vm_compute. reflexivity.
  - reflexivity.
  - reflexivity.
  - reflexivity.
  - reflexivity.
Defined.

(** X12.  End to end, the bad case: when the exchange with the upstream
    fails (a refused connection, an expired deadline), the client of the
    server gets status 503 with the fixed error body, and the cause is in
    the server log only. *)
Theorem upstream_failure_reaches_client_as_503 `{StrconvFloat} `{url.Lib} `{service.Codec}
    (srv : service.OpenWeatherMapService) (timeout : Z)
    (w0 : handler.ResponseWriter) (r : http.Request) (lat lon : float)
    (apiURL : string) (req : http.ClientRequest) (cause : error) :
  http.Method r = "GET" ->
  handler.parseCoordinates r = Ok (lat, lon) ->
  service.buildAPIURL srv lat lon = Ok apiURL ->
  http.NewRequestWithContext (http.WithTimeout (http.Ctx r) timeout) "GET" apiURL = Ok req ->
  http.Do (service.httpClient srv)
    (http.Header_Set (http.Header_Set req "Accept" "application/json")
       "User-Agent" "Weather-API-Go/1.0") = Err cause ->
  http.wroteHeader w0 = false ->
  http.WriteFails w0 = false ->
  handler.serve (handler.New srv timeout) w0 r =
    Return
      {| handler.w := responded w0 503 (error_body "Unable to fetch weather data");
         handler.svc := srv;
         handler.logged :=
           [handler.SlogInfo "GetWeather"
              [("method", http.Method r); ("path", http.Path r);
               ("remote-address", http.RemoteAddr r)];
            handler.LogPrintf
              ("Error fetching weather data: failed to make HTTP request: " +:+ cause)] |}.
Proof.
  intros Hm Hp Hb Hn Hd Hw Hf.
  rewrite serve_unfold, Hm, Hp.
  change (negb (String.eqb "GET" http.MethodGet)) with false. cbv iota.
  unfold handler.bind at 1. unfold handler.call_GetWeather.
  cbn [handler.svc handler.w handler.logged handler.New handler.weatherService
       handler.externalApiTimeout service.WeatherService_GetWeather
       service.OpenWeatherMapService_WeatherService].
  unfold service.GetWeather. rewrite Hb, Hn, Hd.
  unfold handler.bind, handler.log. cbn [handler.svc handler.w handler.logged app].
  rewrite sendErrorResponse_fresh by (auto; unfold http.StatusServiceUnavailable; lia).
  reflexivity.
Qed.

Lemma upstream_failure_reaches_client_as_503_witness :
  @handler.serve _ GoRuntime.strconv_float
    (@service.OpenWeatherMapService_WeatherService GoRuntime.strconv_float
       GoRuntime.plain_url service_test.codec)
    (handler.New (service_test.NewService "secret" (Err "context deadline exceeded")) 10)
    http.NewRecorder (handler_test.NewRequest "GET" "40.7128" "-74.0060")
  = Return
      {| handler.w :=
           responded http.NewRecorder 503 (error_body "Unable to fetch weather data");
         handler.svc := service_test.NewService "secret" (Err "context deadline exceeded");
         handler.logged :=
           [handler.SlogInfo "GetWeather"
              [("method", "GET"); ("path", "/weather");
               ("remote-address", "192.0.2.1:1234")];
            handler.LogPrintf
              ("Error fetching weather data: failed to make HTTP request: "
               +:+ "context deadline exceeded")] |}.
Proof.
  apply (@upstream_failure_reaches_client_as_503 GoRuntime.strconv_float
           GoRuntime.plain_url service_test.codec
           (service_test.NewService "secret" (Err "context deadline exceeded")) 10
           http.NewRecorder (handler_test.NewRequest "GET" "40.7128" "-74.0060")
           40.7128 (-74.006)
           "https://api.openweathermap.org/data/2.5/weather?appid=secret&lat=40.7128&lon=-74.006"
           {| http.req_Ctx := [10]; http.req_Method := "GET";
              http.req_URL :=
                "https://api.openweathermap.org/data/2.5/weather?appid=secret&lat=40.7128&lon=-74.006";
              http.req_Header := ∅ |}).
  - reflexivity.
  - vm_compute. reflexivity.
  - vm_compute. reflexivity.
  - vm_compute. reflexivity.
  - reflexivity.
  - reflexivity.
  - reflexivity.
Defined.

(** ** The order of the temperature categories *)

(** [float_key] orders as [SFcompare] does. *)
Lemma SFcompare_key (x y : spec_float) (kx ky : Z * Z * Z) :
  float_key x = Some kx -> float_key y = Some ky ->
  match SFcompare x y with
  | Some Lt => key_lt kx ky
  | Some Eq => kx = ky
  | Some Gt => key_lt ky kx
  | None => False
  end.
Proof.
  destruct x as [s1 | s1 | | s1 m1 e1], y as [s2 | s2 | | s2 m2 e2];
    try discriminate;
    try (destruct s1); try (destruct s2);
    intros [= <-] [= <-];
    try (cbn; lia); try reflexivity;
    unfold SFcompare; cbv beta iota; unfold key_lt;
    change (Pos.compare_cont Eq m1 m2) with (Pos.compare m1 m2);
    destruct (Z.compare_spec e1 e2) as [E | E | E];
    destruct (Pos.compare_spec m1 m2) as [M | M | M];
    cbn [CompOpp]; try (subst; reflexivity); try lia.
Qed.

Lemma key_lt_le_cases (k1 k2 : Z * Z * Z) : key_lt k1 k2 \/ k1 = k2 \/ key_lt k2 k1.
Proof.
  destruct k1 as [[a1 b1] c1], k2 as [[a2 b2] c2]. unfold key_lt.
  destruct (Z.lt_total a1 a2) as [A | [A | A]];
    destruct (Z.lt_total b1 b2) as [B | [B | B]];
    destruct (Z.lt_total c1 c2) as [C | [C | C]]; subst; auto; try lia.
Qed.

Lemma SFleb_keys (x y : spec_float) :
  SFleb x y = true <->
  exists kx ky, float_key x = Some kx /\ float_key y = Some ky /\ key_le kx ky.
Proof.
  split.
  - intros H.
    destruct (float_key x) as [kx |] eqn:Kx;
      [| destruct x; try destruct s; discriminate].
    destruct (float_key y) as [ky |] eqn:Ky;
      [| destruct y; try destruct s; try discriminate;
         destruct x; try destruct s; discriminate].
    exists kx, ky. split; [reflexivity |]. split; [reflexivity |].
    pose proof (SFcompare_key x y kx ky Kx Ky) as C.
    unfold SFleb in H. destruct (SFcompare x y) as [[] |]; try discriminate.
    + subst ky. destruct kx as [[a b] c]. unfold key_le. lia.
    + destruct kx as [[a b] c], ky as [[a' b'] c']. unfold key_lt in C. unfold key_le. lia.
  - intros (kx & ky & Kx & Ky & L).
    pose proof (SFcompare_key x y kx ky Kx Ky) as C.
    unfold SFleb. destruct (SFcompare x y) as [[] |]; try reflexivity; try contradiction.
    destruct kx as [[a b] c], ky as [[a' b'] c']. unfold key_lt in C. unfold key_le in L. lia.
Qed.

Lemma SFltb_keys (x y : spec_float) :
  SFltb x y = true <->
  exists kx ky, float_key x = Some kx /\ float_key y = Some ky /\ key_lt kx ky.
Proof.
  split.
  - intros H.
    destruct (float_key x) as [kx |] eqn:Kx;
      [| destruct x; try destruct s; discriminate].
    destruct (float_key y) as [ky |] eqn:Ky;
      [| destruct y; try destruct s; try discriminate;
         destruct x; try destruct s; discriminate].
    exists kx, ky. split; [reflexivity |]. split; [reflexivity |].
    pose proof (SFcompare_key x y kx ky Kx Ky) as C.
    unfold SFltb in H. destruct (SFcompare x y) as [[] |]; try discriminate.
    exact C.
  - intros (kx & ky & Kx & Ky & L).
    pose proof (SFcompare_key x y kx ky Kx Ky) as C.
    unfold SFltb. destruct (SFcompare x y) as [[] |]; try reflexivity; try contradiction.
    + subst ky. destruct kx as [[a b] c]. unfold key_lt in L. lia.
    + destruct kx as [[a b] c], ky as [[a' b'] c']. unfold key_lt in C, L. lia.
Qed.

(** Below something that is below a bound. *)
Lemma SFleb_ltb_trans (x y z : spec_float) :
  SFleb x y = true -> SFltb y z = true -> SFltb x z = true.
Proof.
  rewrite SFleb_keys, !SFltb_keys.
  intros (kx & ky & Kx & Ky & L) (ky' & kz & Ky' & Kz & L').
  rewrite Ky in Ky'. injection Ky' as <-.
  exists kx, kz. split; [exact Kx |]. split; [exact Kz |].
  destruct kx as [[a b] c], ky as [[a' b'] c'], kz as [[a'' b''] c''].
  unfold key_le in L. unfold key_lt in *. lia.
Qed.

(** Of two comparable values, the one not below a bound is at least it. *)
Lemma SFltb_false_leb_comparable (x y c : spec_float) :
  SFleb x y = true -> c <> S754_nan ->
  SFltb x c = false -> SFleb c x = true.
Proof.
  rewrite SFleb_keys. intros (kx & ky & Kx & Ky & L) Hc Hlt.
  destruct (float_key c) as [kc |] eqn:Kc; [| destruct c; try destruct s; easy].
  apply SFleb_keys. exists kc, kx. split; [exact Kc |]. split; [exact Kx |].
  destruct (key_lt_le_cases kx kc) as [A | [A | A]].
  - assert (T : SFltb x c = true) by (apply SFltb_keys; eauto). congruence.
  - subst kc. destruct kx as [[a b] d]. unfold key_le. lia.
  - destruct kx as [[a b] d], kc as [[a' b'] d']. unfold key_lt in A. unfold key_le. lia.
Qed.

(** X13.  A reading at least as warm as another is never put in a colder
    category: cold, moderate, hot is the order of the Fahrenheit values. *)
Theorem categorizeTemperature_monotone (F1 F2 : float) :
  (F1 <=? F2)%float = true ->
  (category_rank (service.categorizeTemperature F1)
   <= category_rank (service.categorizeTemperature F2))%nat.
Proof.
  intros H. rewrite leb_spec in H.
  unfold service.categorizeTemperature. rewrite !ltb_spec, !leb_spec.
  assert (H50 : Prim2SF 50 <> S754_nan) by discriminate.
  revert H H50.
  generalize (Prim2SF F1) (Prim2SF F2) (Prim2SF 50) (Prim2SF 68).
  intros x1 x2 c50 c68 H H50.
  destruct (SFltb x2 c50) eqn:A2.
  - rewrite (SFleb_ltb_trans x1 x2 c50 H A2). reflexivity.
  - destruct (SFleb c50 x2 && SFltb x2 c68) eqn:B2.
    + destruct (SFltb x1 c50) eqn:A1; [cbn; lia |].
      apply andb_true_iff in B2. destruct B2 as [_ B2].
      rewrite (SFltb_false_leb_comparable x1 x2 c50 H H50 A1).
      rewrite (SFleb_ltb_trans x1 x2 c68 H B2). reflexivity.
    + destruct (SFltb x1 c50); [cbn; lia |].
      destruct (SFleb c50 x1 && SFltb x1 c68); cbn; lia.
Qed.

Lemma categorizeTemperature_monotone_witness :
  (category_rank (service.categorizeTemperature 49.999)
   <= category_rank (service.categorizeTemperature 50))%nat /\
  (category_rank (service.categorizeTemperature neg_infinity)
   <= category_rank (service.categorizeTemperature 67.999))%nat /\
  (category_rank (service.categorizeTemperature 67.999)
   <= category_rank (service.categorizeTemperature infinity))%nat.
Proof.
  split; [| split].
  - apply (categorizeTemperature_monotone 49.999 50). reflexivity.
  - apply (categorizeTemperature_monotone neg_infinity 67.999). reflexivity.
  - apply (categorizeTemperature_monotone 67.999 infinity). reflexivity.
Defined.

(** ** What a loaded configuration guarantees *)






(** X15.  With the API key set and every other variable unset or empty, the
    configuration is the documented defaults: port 8080, the OpenWeatherMap
    base URL, and the timeouts 15, 15, 120, 10 and 30 seconds. *)
Theorem loadServerConfig_defaults (env : gmap string string) (key : string) :
  env !! "OPENWEATHER_API_KEY" = Some key ->
  key <> "" ->
  (forall name, name <> "OPENWEATHER_API_KEY" ->
     env !! name = None \/ env !! name = Some "") ->
  main.loadServerConfig env =
    Ok {| main.Port := "8080"; main.OpenWeatherAPIKey := key;
          main.OpenWeatherBaseURL := "https://api.openweathermap.org/data/2.5";
          main.ReadTimeoutSec := 15; main.WriteTimeoutSec := 15;
          main.IdleTimeoutSec := 120; main.ClientTimeoutSec := 10;
          main.ServerShutdownTimeoutSec := 30 |}.
Proof.
  intros Hk Hne Hrest.
  assert (G : forall name, name <> "OPENWEATHER_API_KEY" -> utils.Getenv env name = "")
    by (intros name Hn; apply Getenv_unset, Hrest, Hn).
  unfold main.loadServerConfig, utils.GetEnvAsMustStr, utils.GetEnvAsStrWithDefault,
    utils.GetEnvAsIntWithDefault.
  rewrite (G "APP_SERVER_PORT"), (G "OPENWEATHER_BASE_URL"),
    (G "APP_SERVER_READ_TIMEOUT_SEC"), (G "APP_SERVER_WRITE_TIMEOUT_SEC"),
    (G "APP_SERVER_IDLE_TIMEOUT_SEC"), (G "APP_SERVER_CLIENT_TIMEOUT_SEC"),
    (G "APP_SERVER_SHUTDOWN_TIMEOUT_SEC") by discriminate.
  replace (utils.Getenv env "OPENWEATHER_API_KEY") with key
    by (unfold utils.Getenv; rewrite Hk; reflexivity).
  destruct (String.eqb_spec key "") as [E | _]; [contradiction |].
  reflexivity.
Qed.

Lemma loadServerConfig_defaults_witness :
  main.loadServerConfig {[ "OPENWEATHER_API_KEY" := "secret" ]} =
    Ok {| main.Port := "8080"; main.OpenWeatherAPIKey := "secret";
          main.OpenWeatherBaseURL := "https://api.openweathermap.org/data/2.5";
          main.ReadTimeoutSec := 15; main.WriteTimeoutSec := 15;
          main.IdleTimeoutSec := 120; main.ClientTimeoutSec := 10;
          main.ServerShutdownTimeoutSec := 30 |}.
Proof.
  apply (loadServerConfig_defaults {[ "OPENWEATHER_API_KEY" := "secret" ]} "secret").
  - reflexivity.
  - discriminate.
  - intros name Hn. left. apply lookup_singleton_ne. congruence.
Defined.
